(** * Andesite: a shallow embedding of [main.go]

    The development follows the source file top to bottom: the option
    helpers ([findFirstNonZero], [findFirstNonEmpty]), the size printer
    ([reduceNumber], [byteCountIEC]), the response writers
    ([writeUserDenied], [writeAPIResponse], [writeResponse]), the login
    gate of the API handlers ([apiBootstrapRequireLogin]), the reflective
    configuration lookup ([findStructValueWithTag]) and the three startup
    phases of [main] that touch state: schema creation, admin bootstrap
    and the construction of the asset overlay.

    Go's [int] and [int64] are modelled as [Z]; where the source does
    arithmetic on them the 64-bit wrap-around is written out ([wrap64]).
    A Go run-time panic (failed type assertion, index out of range,
    [reflect.Zero(nil)]) is a constructor of the result type, so a
    function that panics is visibly different from one that returns. *)

From Stdlib Require Import ZArith String Ascii List Lia Bool.
From Stdlib Require Import DecimalString.
From stdpp Require Import base option list gmap strings.

Import ListNotations.
Local Open Scope string_scope.
Local Open Scope Z_scope.

(** ** Results of code that may panic *)

Inductive outcome (A : Type) : Type :=
| Returns (a : A)
| Panics (why : string).
Arguments Returns {A} a.
Arguments Panics {A} why.

Definition obind {A B} (m : outcome A) (k : A -> outcome B) : outcome B :=
  match m with
  | Returns a => k a
  | Panics why => Panics why
  end.

Notation "'letp' x <~ m 'in' k" := (obind m (fun x => k))
  (at level 10, x name, m at level 100, k at level 200).

(** ** Machine integers *)

Definition int64_min : Z := - 2 ^ 63.
Definition int64_max : Z := 2 ^ 63 - 1.

Definition is_int64 (z : Z) : Prop := int64_min <= z <= int64_max.

(** Two's complement reduction of an unbounded result to [int64]. *)
Definition wrap64 (z : Z) : Z := (z + 2 ^ 63) mod 2 ^ 64 - 2 ^ 63.

(** ** Option helpers (main.go, lines 480-496) *)

(** [findFirstNonEmpty(values ...string) string] *)
Fixpoint findFirstNonEmpty (values : list string) : string :=
  match values with
  | [] => ""
  | item :: rest =>
      if (0 <? Z.of_nat (String.length item))%Z then item
      else findFirstNonEmpty rest
  end.

(** [findFirstNonZero(values ...int) int] *)
Fixpoint findFirstNonZero (values : list Z) : Z :=
  match values with
  | [] => 0
  | item :: rest =>
      if negb (item =? 0) then item else findFirstNonZero rest
  end.

(** Line 84: [opPort] is [findFirstNonZero] applied to the [--port] flag,
    [config.Port] and the constant 8000, in this order. *)
Definition opPort (flagPort configPort : Z) : Z :=
  findFirstNonZero [flagPort; configPort; 8000].

(** ** Size printer (main.go, lines 279-293) *)

(** [%d] of [fmt.Sprintf]: the decimal digits, with a leading minus sign
    for a negative number. *)
Definition fmt_d (z : Z) : string := NilZero.string_of_int (Z.to_int z).

(** Reading a decimal numeral back: the value of a string of digits
    ([None] when a character is not a digit), most significant first. *)
Definition digit_value (c : ascii) : option Z :=
  let n := Z.of_nat (nat_of_ascii c) in
  if (48 <=? n) && (n <=? 57) then Some (n - 48) else None.

Fixpoint digits_value (acc : Z) (s : string) : option Z :=
  match s with
  | EmptyString => Some acc
  | String c rest =>
      match digit_value c with
      | Some d => digits_value (10 * acc + d) rest
      | None => None
      end
  end.

(** [is_decimal_of s b]: [s] is the decimal representation of the
    natural number [b]: digits only, at least one, no leading zero except
    for ["0"] itself, and of value [b]. *)
Definition is_decimal_of (s : string) (b : Z) : bool :=
  match s with
  | EmptyString => false
  | String c rest =>
      (negb (Ascii.eqb c "0"%char) || String.eqb rest "")
      && match digits_value 0 s with
         | Some v => v =? b
         | None => false
         end
  end.

Section ReduceNumber.

(** [fmt_f1 input div] stands for [%.1f] applied to
    [float64(input)/float64(div)]; floating point is kept abstract. *)
Variable fmt_f1 : Z -> Z -> string.

(** The loop [for n := input / unit; n >= unit; n /= unit] with its two
    accumulators, entered with [unit] other than zero.  Go's [/]
    truncates towards zero ([Z.quot]).  [None] when the fuel runs out. *)
Fixpoint reduceLoop (fuel : nat) (unit n div : Z) (exp : nat)
  : option (Z * nat) :=
  if (n >=? unit)%Z then
    match fuel with
    | O => None
    | S fuel' =>
        reduceLoop fuel' unit (wrap64 (Z.quot n unit)) (wrap64 (div * unit))
                   (S exp)
    end
  else Some (div, exp).

(** [reduceNumber(input, unit int64, base, prefixes string) string].
    [None] is the loop running out of fuel; the panics are the division
    by a zero [unit] and [prefixes[exp]] out of range. *)
Definition reduceNumber (fuel : nat) (input unit : Z) (base prefixes : string)
  : option (outcome string) :=
  if (input <? unit)%Z then
    Some (Returns (fmt_d input +:+ " " +:+ base))
  else if (unit =? 0)%Z then
    Some (Panics "integer divide by zero")
  else
    match reduceLoop fuel unit (wrap64 (Z.quot input unit)) unit 0%nat with
    | None => None
    | Some (div, exp) =>
        match String.get exp prefixes with
        | Some c =>
            Some (Returns (fmt_f1 input div +:+ " " +:+ String c "i" +:+ base))
        | None => Some (Panics "index out of range")
        end
    end.

(** Seven iterations exhaust any [int64]: [1024 ^ 7 > 2 ^ 63]. *)
Definition iec_fuel : nat := 7.

(** [byteCountIEC(b int64) string] *)
Definition byteCountIEC (b : Z) : option (outcome string) :=
  reduceNumber iec_fuel b 1024 "B" "KMGTPEZY".

End ReduceNumber.

(** ** Rows of the relational store (second source part, types) *)

Record UserRow := {
  user_id : Z;
  user_snowflake : string;
  user_admin : bool;
  user_name : string
}.

Record UserAccessRow := {
  access_id : Z;
  access_user : Z;
  access_path : string
}.

Record ShareRow := {
  share_id : Z;
  share_hash : string;
  share_path : string
}.

(** The zero value [UserRow{}]. *)
Definition UserRow_zero : UserRow :=
  {| user_id := 0; user_snowflake := ""; user_admin := false; user_name := "" |}.

(** ** Configuration (second source part, [Config] and [ConfigIDP]) *)

Record ConfigIDP := {
  idp_Auth : string;
  idp_ID : string;
  idp_Secret : string
}.

(** [oauth2.Provider] of go.oauth2; only [NamePrefix] is read here. *)
Record Provider := {
  prov_ID : string;
  prov_NamePrefix : string
}.

Record Config := {
  Root : string;
  Port : Z;
  Themes : list string;
  HTTPBase : string;
  Auth : string;
  Discord : option ConfigIDP;
  Reddit : option ConfigIDP;
  GitHub : option ConfigIDP;
  Google : option ConfigIDP;
  Facebook : option ConfigIDP;
  Microsoft : option ConfigIDP;
  Providers : list Provider;
  CustomIds : list ConfigIDP
}.

(** ** Reflection over [Config] (main.go, lines 468-478) *)

(** A [reflect.Value]: the zero, invalid value or one field of [Config]. *)
Inductive reflect_Value :=
| RInvalid
| RString (s : string)
| RInt (z : Z)
| RStrings (l : list string)
| RIDP (p : option ConfigIDP)
| RProviders (l : list Provider)
| RCustom (l : list ConfigIDP).

(** [reflect.StructField]: the struct tag is kept parsed, as the list of
    its [key:value] pairs. *)
Record StructField := {
  Name : string;
  Tag : list (string * string)
}.

(** [StructTag.Get]: the value under [key], the empty string without one. *)
Fixpoint Tag_Get (tag : list (string * string)) (key : string) : string :=
  match tag with
  | [] => ""
  | (k, v) :: rest => if String.eqb k key then v else Tag_Get rest key
  end.

(** [t.Field(i)] for [i] from [0] to [NumField() - 1], in the order of
    declaration of [Config]. *)
Definition Config_fields : list StructField :=
  [ {| Name := "Root";      Tag := [("json", "root")] |};
    {| Name := "Port";      Tag := [("json", "port")] |};
    {| Name := "Themes";    Tag := [("json", "themes")] |};
    {| Name := "HTTPBase";  Tag := [("json", "base")] |};
    {| Name := "Auth";      Tag := [("json", "auth")] |};
    {| Name := "Discord";   Tag := [("json", "discord")] |};
    {| Name := "Reddit";    Tag := [("json", "reddit")] |};
    {| Name := "GitHub";    Tag := [("json", "github")] |};
    {| Name := "Google";    Tag := [("json", "google")] |};
    {| Name := "Facebook";  Tag := [("json", "facebook")] |};
    {| Name := "Microsoft"; Tag := [("json", "microsoft")] |};
    {| Name := "Providers"; Tag := [("json", "providers")] |};
    {| Name := "CustomIds"; Tag := [("json", "custom")] |} ].

(** [v.FieldByName(name)]; the zero [reflect.Value] for an unknown name. *)
Definition FieldByName (v : Config) (name : string) : reflect_Value :=
  if String.eqb name "Root" then RString (Root v)
  else if String.eqb name "Port" then RInt (Port v)
  else if String.eqb name "Themes" then RStrings (Themes v)
  else if String.eqb name "HTTPBase" then RString (HTTPBase v)
  else if String.eqb name "Auth" then RString (Auth v)
  else if String.eqb name "Discord" then RIDP (Discord v)
  else if String.eqb name "Reddit" then RIDP (Reddit v)
  else if String.eqb name "GitHub" then RIDP (GitHub v)
  else if String.eqb name "Google" then RIDP (Google v)
  else if String.eqb name "Facebook" then RIDP (Facebook v)
  else if String.eqb name "Microsoft" then RIDP (Microsoft v)
  else if String.eqb name "Providers" then RProviders (Providers v)
  else if String.eqb name "CustomIds" then RCustom (CustomIds v)
  else RInvalid.

(** [v.Field(i)]: the value of the [i]-th field in the order of
    declaration, used to say which field a lookup found. *)
Definition Config_Field (v : Config) (i : nat) : reflect_Value :=
  nth i [ RString (Root v); RInt (Port v); RStrings (Themes v);
          RString (HTTPBase v); RString (Auth v);
          RIDP (Discord v); RIDP (Reddit v); RIDP (GitHub v);
          RIDP (Google v); RIDP (Facebook v); RIDP (Microsoft v);
          RProviders (Providers v); RCustom (CustomIds v) ] RInvalid.

(** The loop of [findStructValueWithTag] over the fields still to visit. *)
Fixpoint findField (fields : list StructField) (ttype tag : string)
  : option StructField :=
  match fields with
  | [] => None
  | f :: rest =>
      if String.eqb (Tag_Get (Tag f) ttype) tag then Some f
      else findField rest ttype tag
  end.

(** [findStructValueWithTag(item interface{}, ttype, tag string)].  The
    first argument [config] is the global variable the body reads
    ([None] for a nil pointer); [item] is the parameter. *)
Definition findStructValueWithTag {A : Type} (config : option Config)
    (item : A) (ttype tag : string) : outcome reflect_Value :=
  match config with
  | None => Panics "reflect: call of Type on zero Value"
  | Some v =>
      match findField Config_fields ttype tag with
      | Some f => Returns (FieldByName v (Name f))
      | None => Panics "reflect: Zero(nil)"
      end
  end.

(** ** The relational store *)

(** The store as [main] uses it: the schema (table name to its columns,
    each a name and a type, the primary key first) and the rows of the
    three tables, typed as the row structs that the queries scan into. *)
Record DB := {
  schema : gmap string (list (string * string));
  users : list UserRow;
  access : list UserAccessRow;
  shares : list ShareRow
}.

Definition set_schema (sc : gmap string (list (string * string)))
    (db : DB) : DB :=
  {| schema := sc; users := users db; access := access db; shares := shares db |}.

Definition set_users (us : list UserRow) (db : DB) : DB :=
  {| schema := schema db; users := us; access := access db; shares := shares db |}.

Definition set_access (ac : list UserAccessRow) (db : DB) : DB :=
  {| schema := schema db; users := users db; access := ac; shares := shares db |}.

(** The store of a first start: no table yet. *)
Definition empty_DB : DB :=
  {| schema := ∅; users := []; access := []; shares := [] |}.

(** [Contains(stack []string, needle string) bool] of go-util. *)
Definition Contains (stack : list string) (needle : string) : bool :=
  existsb (String.eqb needle) stack.

(** One column of [CreateTable]: added to the table unless a column of
    this name is there already. *)
Definition add_column (cols : list (string * string)) (col : string * string)
  : list (string * string) :=
  if Contains (map fst cols) (fst col) then cols else (cols ++ [col])%list.

(** Modelled from the spec: [database.CreateTable(name, pk, columns)]
    belongs to go-util's sqlite package, which is not part of the source
    at hand.  The spec has the tables created at every start; the table
    is created with its primary key when the store lacks it, then every
    listed column that the table lacks is added. *)
Definition CreateTable (name : string) (pk : string * string)
    (columns : list (string * string)) (db : DB) : DB :=
  let cols0 := match schema db !! name with
               | Some cols => cols
               | None => [pk]
               end in
  set_schema (<[name := fold_left add_column columns cols0]> (schema db)) db.

(** Lines 157-169 of [main]. *)
Definition createTables (db : DB) : DB :=
  let db := CreateTable "users" ("id", "int primary key")
              [("snowflake", "text"); ("admin", "tinyint(1)"); ("name", "text")] db in
  let db := CreateTable "access" ("id", "int primary key")
              [("user", "int"); ("path", "text")] db in
  CreateTable "shares" ("id", "int primary key")
              [("hash", "text"); ("path", "text")] db.

(** The columns that [table] has in the store, by name. *)
Definition column_names (db : DB) (table : string) : option (list string) :=
  map fst <$> schema db !! table.

(** The largest of a list of ids, [0] for an empty list: what
    [select id ... order by id desc limit 1] leaves in a result that
    starts at zero. *)
Definition last_id (ids : list Z) : Z :=
  match ids with
  | [] => 0
  | i :: rest => fold_left Z.max rest i
  end.

(** Modelled from the spec: [database.QueryNextID(table)] belongs to
    go-util's sqlite package, which is not part of the source at hand.
    The spec has the next id computed on the client's side from a read
    of the table: one more than the largest id. *)
Definition QueryNextID (ids : list Z) : Z := last_id ids + 1.

Definition QueryNextID_users (db : DB) : Z :=
  QueryNextID (map user_id (users db)).

Definition QueryNextID_access (db : DB) : Z :=
  QueryNextID (map access_id (access db)).

(** Modelled from the spec: [queryUserBySnowflake] is not part of the
    source at hand; it is the lookup of a user by its external id (the
    [snowflake] column), the first matching row and whether there is one. *)
Definition queryUserBySnowflake (db : DB) (snowflake : string)
  : option UserRow :=
  List.find (fun u => String.eqb (user_snowflake u) snowflake) (users db).

(** Modelled from the spec: [queryAccess] is not part of the source at
    hand; it lists the path prefixes granted to a user, the [path] of
    every [access] row whose [user] is the user's id. *)
Definition queryAccess (db : DB) (user : UserRow) : list string :=
  map access_path
      (List.filter (fun a => access_user a =? user_id user) (access db)).

(** An insert into a table whose [id] is the primary key (lines 157 and
    162): the store rejects the statement ([None]) when the id is taken. *)
Definition insert_user (row : UserRow) (db : DB) : option DB :=
  if existsb (Z.eqb (user_id row)) (map user_id (users db)) then None
  else Some (set_users (users db ++ [row])%list db).

Definition insert_access (row : UserAccessRow) (db : DB)
  : option DB :=
  if existsb (Z.eqb (access_id row)) (map access_id (access db)) then None
  else Some (set_access (access db ++ [row])%list db).

(** Modelled from the spec: [queryDoAddUser] is not part of the source at
    hand; it creates the user row with the given id, external id, admin
    flag and display name. *)
Definition queryDoAddUser (uid : Z) (snowflake : string) (admin : bool)
    (name : string) (db : DB) : option DB :=
  insert_user {| user_id := uid; user_snowflake := snowflake;
                 user_admin := admin; user_name := name |} db.

(** [database.QueryDoUpdate("users", "admin", "1", "id", id)] of line
    182, a statement of go-util's sqlite package: the [admin] column is
    set in every row of [users] whose [id] is the given one. *)
Definition set_admin_where (id : Z) (u : UserRow) : UserRow :=
  if user_id u =? id
  then {| user_id := user_id u; user_snowflake := user_snowflake u;
          user_admin := true; user_name := user_name u |}
  else u.

Definition QueryDoUpdate_users_admin (id : Z) (db : DB) : DB :=
  set_users (map (set_admin_where id) (users db)) db.

(** The two rows that the admin creation may insert. *)
Definition admin_row (uid : Z) (snowflake : string) : UserRow :=
  {| user_id := uid; user_snowflake := snowflake;
     user_admin := true; user_name := "" |}.

Definition root_grant (aid : Z) (user : Z) : UserAccessRow :=
  {| access_id := aid; access_user := user; access_path := "/" |}.

(** Lines 174-192 of [main]: admin creation from the [--admin] flag.
    [None] when the store rejects one of the inserts. *)
Definition adminBootstrap (flagAdmin : string) (db : DB)
  : option DB :=
  if negb (String.eqb flagAdmin "") then
    let step1 :=
      match queryUserBySnowflake db flagAdmin with
      | None =>
          let uid := QueryNextID_users db in
          queryDoAddUser uid flagAdmin true "" db
      | Some uu =>
          if negb (user_admin uu)
          then Some (QueryDoUpdate_users_admin (user_id uu) db)
          else Some db
      end in
    match step1 with
    | None => None
    | Some db1 =>
        let nu := default UserRow_zero (queryUserBySnowflake db1 flagAdmin) in
        if negb (Contains (queryAccess db1 nu) "/") then
          let aid := QueryNextID_access db1 in
          insert_access (root_grant aid (user_id nu)) db1
        else Some db1
    end
  else Some db.

(** What the admin creation leaves, table by table: the user that the
    flag names after the first step, the [users] table and the [access]
    table. *)
Definition bootstrap_user (flagAdmin : string) (db : DB) : UserRow :=
  match queryUserBySnowflake db flagAdmin with
  | None => admin_row (QueryNextID_users db) flagAdmin
  | Some uu => if user_admin uu then uu else set_admin_where (user_id uu) uu
  end.

Definition bootstrap_users (flagAdmin : string) (db : DB) : list UserRow :=
  match queryUserBySnowflake db flagAdmin with
  | None => (users db ++ [admin_row (QueryNextID_users db) flagAdmin])%list
  | Some uu =>
      if user_admin uu then users db
      else map (set_admin_where (user_id uu)) (users db)
  end.

Definition bootstrap_access (flagAdmin : string) (db : DB)
  : list UserAccessRow :=
  let nu := bootstrap_user flagAdmin db in
  if Contains (queryAccess db nu) "/" then access db
  else (access db ++ [root_grant (QueryNextID_access db) (user_id nu)])%list.

(** The rows of [access] that grant the root folder to a user id. *)
Definition root_grants (db : DB) (uid : Z) : list UserAccessRow :=
  List.filter (fun a => (access_user a =? uid) && String.eqb "/" (access_path a))
              (access db).

(** ** Two clients allocating an id (the allocation of lines 177-178
       and 188-189, run by two clients of one store) *)

(** The two tables that the admin creation inserts into, and the row
    that a client is about to add to one of them: a user (line 178) or
    a grant of the root folder (line 189). *)
Inductive table :=
| Users
| Access.

Inductive new_row :=
| NewUser (snowflake : string)
| NewGrant (user : Z).

Definition table_of (row : new_row) : table :=
  match row with
  | NewUser _ => Users
  | NewGrant _ => Access
  end.

Definition ids_of (t : table) (db : DB) : list Z :=
  match t with
  | Users => map user_id (users db)
  | Access => map access_id (access db)
  end.

(** [uid := database.QueryNextID("users")] and
    [aid := database.QueryNextID("access")]. *)
Definition next_id_for (row : new_row) (db : DB) : Z :=
  match row with
  | NewUser _ => QueryNextID_users db
  | NewGrant _ => QueryNextID_access db
  end.

(** The insert that follows, with the id that the client holds. *)
Definition insert_with (row : new_row) (id : Z) (db : DB) : option DB :=
  match row with
  | NewUser snowflake => queryDoAddUser id snowflake true "" db
  | NewGrant user => insert_access (root_grant id user) db
  end.

(** The store once the insert of [row] with the id [id] is accepted. *)
Definition inserted (row : new_row) (id : Z) (db : DB) : DB :=
  match row with
  | NewUser snowflake => set_users (users db ++ [admin_row id snowflake])%list db
  | NewGrant user => set_access (access db ++ [root_grant id user])%list db
  end.

(** A client runs two statements: the read [QueryNextID] and then the
    insert with the id it read. *)
Inductive client_pc :=
| AtQuery
| AtInsert (id : Z)
| Finished (id : Z) (accepted : bool).

Record client := {
  cl_row : new_row;
  cl_pc : client_pc
}.

Definition client_step (c : client) (db : DB) : client * DB :=
  match cl_pc c with
  | AtQuery =>
      ({| cl_row := cl_row c; cl_pc := AtInsert (next_id_for (cl_row c) db) |}, db)
  | AtInsert id =>
      match insert_with (cl_row c) id db with
      | Some db' => ({| cl_row := cl_row c; cl_pc := Finished id true |}, db')
      | None => ({| cl_row := cl_row c; cl_pc := Finished id false |}, db)
      end
  | Finished _ _ => (c, db)
  end.

(** A schedule names, statement by statement, which of the two clients
    runs next: [false] the first, [true] the second. *)
Fixpoint run_schedule (sched : list bool) (c1 c2 : client) (db : DB)
  : client * client * DB :=
  match sched with
  | [] => (c1, c2, db)
  | false :: rest =>
      let '(c1', db') := client_step c1 db in run_schedule rest c1' c2 db'
  | true :: rest =>
      let '(c2', db') := client_step c2 db in run_schedule rest c1 c2' db'
  end.

Definition new_client (row : new_row) : client :=
  {| cl_row := row; cl_pc := AtQuery |}.

(** ** The asset overlay (main.go, lines 228-250 and 273-277) *)

(** What the sources read: the directories of the disk, each with the
    files below it, and the bundle embedded by packr. *)
Record world := {
  disk : gmap string (gmap string string);
  bundle : gmap string string
}.

(** An [http.FileSystem] of the overlay: [http.Dir(loc)] or the packr box. *)
Inductive FileSystem :=
| Dir (loc : string)
| Box (name path : string).

(** [fs.Open(path)]; [None] is the error result. *)
Definition Open (wd : world) (fs : FileSystem) (path : string) : option string :=
  match fs with
  | Dir loc =>
      match disk wd !! loc with
      | Some files => files !! path
      | None => None
      end
  | Box _ _ => bundle wd !! path
  end.

(** Modelled from the spec: [types.MultiplexFileSystem] and its [Open]
    are not part of the source at hand; the sources are consulted in
    order and the first one that has the path wins, not found only when
    no source has it. *)
Fixpoint Multiplex_Open (wd : world) (dirs : list FileSystem) (path : string)
  : option string :=
  match dirs with
  | [] => None
  | fs :: rest =>
      match Open wd fs path with
      | Some f => Some f
      | None => Multiplex_Open wd rest path
      end
  end.

(** [DoesDirectoryExist(loc)] of go-util. *)
Definition DoesDirectoryExist (wd : world) (loc : string) : bool :=
  bool_decide (is_Some (disk wd !! loc)).

(** The source that a theme contributes: its directory below
    [metaDir/themes]. *)
Definition themeDir (metaDir item : string) : FileSystem :=
  Dir (metaDir +:+ "/themes/" +:+ item).

(** One of the two theme loops (lines 233-237 and 238-242): every theme
    must be a directory below [metaDir/themes], else the process dies
    ([None]); its directory is appended to [dirs]. *)
Fixpoint themeLoop (wd : world) (metaDir : string) (items : list string)
    (dirs : list FileSystem) : option (list FileSystem) :=
  match items with
  | [] => Some dirs
  | item :: rest =>
      let loc := metaDir +:+ "/themes/" +:+ item in
      if DoesDirectoryExist wd loc
      then themeLoop wd metaDir rest (dirs ++ [Dir loc])%list
      else None
  end.

(** Lines 228-250: the value given to [wwFFS]. *)
Definition setupOverlay (wd : world) (metaDir : string)
    (flagTheme configThemes : list string) : option (list FileSystem) :=
  let dirs := [] in
  match themeLoop wd metaDir flagTheme dirs with
  | None => None
  | Some dirs =>
      match themeLoop wd metaDir configThemes dirs with
      | None => None
      | Some dirs =>
          let dirs := (dirs ++ [Dir "./www/"])%list in
          let dirs := (dirs ++ [Box "" "./www/"])%list in
          Some dirs
      end
  end.

(** ** Requests, sessions and the response writer *)

(** A value stored in [sess.Values] (a Go [interface{}]): a string, or a
    value of another dynamic type.  An absent key reads as [nil]. *)
Inductive value :=
| VString (s : string)
| VOther (dynamicType : string).

(** The type assertion [x.(string)] on what a map read gave. *)
Definition assertString (x : option value) : outcome string :=
  match x with
  | Some (VString s) => Returns s
  | Some (VOther t) => Panics ("interface conversion: interface {} is " +:+ t +:+ ", not string")
  | None => Panics "interface conversion: interface {} is nil, not string"
  end.

(** What the handlers read of an [*http.Request]: the method, the values
    of the session that [etc.GetSession] finds for it, and the form that
    [ParseForm] would parse ([None] when parsing fails). *)
Record Request := {
  Method : string;
  Values : gmap string value;
  ParseForm : option (gmap string (list string))
}.

(** The sessions that lines 325-327 and 419 count on: the user, when
    there is one, is a string, and a name comes with such a user and is
    a string too. *)
Definition session_ok (r : Request) : bool :=
  match Values r !! "name", Values r !! "user" with
  | None, None => true
  | None, Some (VString _) => true
  | Some (VString _), Some (VString _) => true
  | _, _ => false
  end.

(** An [http.ResponseWriter]: the status code once the header is written,
    the header map as a list of additions, and the body written so far. *)
Record ResponseWriter := {
  status : option Z;
  header : list (string * string);
  body : string
}.

Definition new_ResponseWriter : ResponseWriter :=
  {| status := None; header := []; body := "" |}.

Definition StatusForbidden : Z := 403.
Definition StatusOK : Z := 200.

(** [w.WriteHeader(code)]: the first call fixes the status code. *)
Definition WriteHeader (code : Z) (w : ResponseWriter) : ResponseWriter :=
  match status w with
  | Some _ => w
  | None => {| status := Some code; header := header w; body := body w |}
  end.

(** [w.Header().Add(key, val)] *)
Definition Header_Add (key val : string) (w : ResponseWriter) : ResponseWriter :=
  {| status := status w; header := (header w ++ [(key, val)])%list; body := body w |}.

(** [w.Write]: an unwritten header goes out first, with [200]. *)
Definition Write (data : string) (w : ResponseWriter) : ResponseWriter :=
  {| status := Some (default StatusOK (status w));
     header := header w;
     body := body w +:+ data |}.

Definition newline : string := String (ascii_of_nat 10) "".

(** The process-wide variables that the handlers read. *)
Record globals := {
  httpBase : string;
  oauth2Provider_idp : Provider;
  database : DB;
  wwFFS : list FileSystem;
  files : world
}.

(** The context that [writeResponse] hands to the template: the map
    with the keys [title], [message], [link] and [base]. *)
Definition response_context (g : globals) (title message link : string)
  : gmap string string :=
  <["title" := title]> (<["message" := message]>
    (<["link" := link]> (<["base" := httpBase g]> ∅))).

Section Handlers.

(** [raymond.Render(template, context)], with its error dropped as the
    source drops it; templating is kept abstract. *)
Variable Render : string -> gmap string string -> string.

Variable g : globals.

(** [readServerFile(path)]: [ioutil.ReadAll] of the nil reader that a
    failed [Open] leaves panics. *)
Definition readServerFile (path : string) : outcome string :=
  match Multiplex_Open (files g) (wwFFS g) path with
  | Some bytes => Returns bytes
  | None => Panics "invalid memory address or nil pointer dereference"
  end.

(** [writeHandlebarsFile(r, w, file, context)] *)
Definition writeHandlebarsFile (r : Request) (w : ResponseWriter)
    (file : string) (context : gmap string string) : outcome ResponseWriter :=
  letp template <~ readServerFile file in
  let result := Render template context in
  let w := Header_Add "Content-Type" "text/html" w in
  Returns (Write (result +:+ newline) w).

(** [writeResponse(r, w, title, message, link)] *)
Definition writeResponse (r : Request) (w : ResponseWriter)
    (title message link : string) : outcome ResponseWriter :=
  writeHandlebarsFile r w "/response.hbs"
    (response_context g title message link).

(** [writeAPIResponse(r, w, good, message)] *)
Definition writeAPIResponse (r : Request) (w : ResponseWriter)
    (good : bool) (message : string) : outcome ResponseWriter :=
  let w := if negb good then WriteHeader StatusForbidden w else w in
  let titlemsg := if good then "Update Successful" else "Update Failed" in
  writeResponse r w titlemsg message
    ("Return to <a href='" +:+ httpBase g +:+ "admin'>the dashboard</a>.").

(** [writeUserDenied(r, w, fileOrAdmin, showLogin)] *)
Definition writeUserDenied (r : Request) (w : ResponseWriter)
    (fileOrAdmin showLogin : bool) : outcome ResponseWriter :=
  let me := "" in
  let sessName := Values r !! "name" in
  letp me <~
    match sessName with
    | Some _ =>
        let sessID := Values r !! "user" in
        letp name <~ assertString sessName in
        letp id <~ assertString sessID in
        Returns (me +:+ prov_NamePrefix (oauth2Provider_idp g) +:+ name
                   +:+ " (" +:+ id +:+ ")")
    | None => Returns me
    end in
  let message :=
    if fileOrAdmin then
      if showLogin
      then "You" +:+ me +:+ " do not have access to this resource."
      else "Unable to find the requested resource for you " +:+ me +:+ "."
    else "Admin priviledge required. Access denied." in
  let linkmsg := "" in
  if showLogin then
    let linkmsg := "Please <a href='" +:+ httpBase g +:+ "login'>Log In</a>." in
    let w := WriteHeader StatusForbidden w in
    writeResponse r w "Forbidden" message linkmsg
  else
    let w := WriteHeader StatusForbidden w in
    writeResponse r w "Not Found" message linkmsg.

(** The two results of [apiBootstrapRequireLogin]: the error
    [(nil, UserRow{}, E(...))] or [(sess, user, nil)]. *)
Inductive login :=
| LoginError
| LoginOk (sess : gmap string value) (user : UserRow).

(** [apiBootstrapRequireLogin(r, w, method, requireAdmin)] *)
Definition apiBootstrapRequireLogin (r : Request) (w : ResponseWriter)
    (method : string) (requireAdmin : bool) : outcome (login * ResponseWriter) :=
  if negb (String.eqb (Method r) method) then
    letp w <~ writeAPIResponse r w false
                ("This action requires using HTTP " +:+ method) in
    Returns (LoginError, w)
  else
    let sess := Values r in
    let sessID := sess !! "user" in
    match sessID with
    | None =>
        letp w <~ writeUserDenied r w true true in
        Returns (LoginError, w)
    | Some _ =>
        letp userID <~ assertString sessID in
        match queryUserBySnowflake (database g) userID with
        | None =>
            letp w <~ writeResponse r w "Access Denied"
                        ("This action requires being a member of this server. ("
                           +:+ userID +:+ ")") "" in
            Returns (LoginError, w)
        | Some user =>
            if requireAdmin && negb (user_admin user) then
              letp w <~ writeAPIResponse r w false
                          ("This action requires being a site administrator. ("
                             +:+ userID +:+ ")") in
              Returns (LoginError, w)
            else
              match ParseForm r with
              | None =>
                  letp w <~ writeAPIResponse r w false "Error parsing form data" in
                  Returns (LoginError, w)
              | Some _ => Returns (LoginOk sess user, w)
              end
        end
    end.

End Handlers.

(** The two reasons for which a file path is denied. *)
Inductive denial :=
| NotFound
| Forbidden.

(** Modelled from the spec: the handler of file paths, which finds out
    why a path is denied and answers, is not part of the source at hand.
    The spec has the two denials of a file path answered alike, so that
    the answer does not tell whether the path exists: whatever the
    reason, the handler answers through [writeUserDenied], for a file,
    with the [showLogin] it has settled on for the request. *)
Definition denyFilePath (Render : string -> gmap string string -> string)
    (g : globals) (showLogin : bool) (why : denial)
    (r : Request) (w : ResponseWriter) : outcome ResponseWriter :=
  match why with
  | NotFound => writeUserDenied Render g r w true showLogin
  | Forbidden => writeUserDenied Render g r w true showLogin
  end.

(** ** The path access model *)

(** The segments of a path: the non-empty pieces between slashes, so
    ["/b/c"] is [["b"; "c"]] and ["/"] is the empty list. *)
Fixpoint segments_from (cur : string) (p : string) : list string :=
  match p with
  | EmptyString => if String.eqb cur "" then [] else [cur]
  | String c rest =>
      if Ascii.eqb c "/"%char then
        if String.eqb cur "" then segments_from "" rest
        else cur :: segments_from "" rest
      else segments_from (cur +:+ String c "") rest
  end.

Definition segments (p : string) : list string := segments_from "" p.

(** [strict_prefixb l1 l2]: [l2] is [l1] followed by at least one more
    segment. *)
Fixpoint strict_prefixb (l1 l2 : list string) : bool :=
  match l1, l2 with
  | [], [] => false
  | [], _ :: _ => true
  | _ :: _, [] => false
  | a :: l1', b :: l2' => String.eqb a b && strict_prefixb l1' l2'
  end.

(** Modelled from the spec: [isPermitted] is not part of the source at
    hand; it is true when some grant equals the target or the target is
    a path-segment descendant of the grant, so that ["/"] matches
    everything and ["/foo"] does not match ["/foobar"]. *)
Definition isPermitted (grants : list string) (target : string) : bool :=
  existsb (fun g => String.eqb g target
                    || strict_prefixb (segments g) (segments target)) grants.

(** The property that the spec words: the target lies below the grant,
    one or more whole segments deeper. *)
Definition descendant (g target : string) : Prop :=
  exists rest : list string,
    rest <> [] /\ segments target = (segments g ++ rest)%list.

(** ** List and form helpers (main.go, lines 303-311 and 396-403) *)

(** The loop of [filter]: [result] grows by [append] with every item
    that the callback accepts. *)
Fixpoint filter_loop {A : Type} (cb : A -> bool) (stack result : list A)
  : list A :=
  match stack with
  | [] => result
  | item :: rest =>
      filter_loop cb rest (if cb item then (result ++ [item])%list else result)
  end.

(** [filter(stack []os.FileInfo, cb func(os.FileInfo) bool) []os.FileInfo];
    the element type plays no part and is left open. *)
Definition filter_stack {A : Type} (stack : list A) (cb : A -> bool) : list A :=
  filter_loop cb stack [].

(** [containsAll(mp url.Values, keys ...string) bool]: [url.Values] is a
    map from a key to its list of values. *)
Fixpoint containsAll (mp : gmap string (list string)) (keys : list string)
  : bool :=
  match keys with
  | [] => true
  | item :: rest =>
      match mp !! item with
      | None => false
      | Some _ => containsAll mp rest
      end
  end.

(** ** Middleware (main.go, lines 448-466) *)

(** [http.HandlerFunc] and [Middleware], over the response writer and
    the request of this development. *)
Definition HandlerFunc : Type := ResponseWriter -> Request -> outcome ResponseWriter.
Definition Middleware : Type := HandlerFunc -> HandlerFunc.

(** The loop [for i := len(mw) - 1; i >= 0; i--] of [chainMiddleware],
    with [n] standing for [i + 1]; [mw[i]] out of range panics. *)
Fixpoint chainLoop (mw : list Middleware) (n : nat) (last : HandlerFunc)
  : HandlerFunc :=
  match n with
  | O => last
  | S i =>
      match mw !! i with
      | Some m => chainLoop mw i (m last)
      | None => fun _ _ => Panics "index out of range"
      end
  end.

(** [chainMiddleware(mw ...Middleware) Middleware] *)
Definition chainMiddleware (mw : list Middleware) : Middleware :=
  fun final => fun w r => chainLoop mw (length mw) final w r.

(** [mwAddAttribution(next http.HandlerFunc) http.HandlerFunc] *)
Definition mwAddAttribution : Middleware :=
  fun next => fun w r =>
    let w := Header_Add "Server" "nektro/andesite" w in
    next w r.

(** ** Start-up options (main.go, lines 82-149) *)

Definition RootTypeDir : string := "dir".
Definition RootTypeHttp : string := "http".

(** Lines 82 and 92-105: the root directory.  [absClean] stands for
    [filepath.Abs(filepath.Clean(strings.Replace(opRoot, "~", homedir, -1)))];
    [None] is the process dying in [DieOnError]. *)
Definition configureRoot (wd : world) (absClean : string -> string)
    (flagRoot flagRType : string) (config : Config) : option string :=
  let opRoot := findFirstNonEmpty [flagRoot; Root config] in
  if String.eqb flagRType RootTypeDir then
    if String.eqb opRoot "" then None
    else
      let s := absClean opRoot in
      if DoesDirectoryExist wd s then Some s else None
  else None.

(** Line 86: the HTTP base. *)
Definition opBase (flagBase : string) (config : Config) : string :=
  findFirstNonEmpty [flagBase; HTTPBase config; "/"].

(** [Oauth2Provider], as lines 129 and 253 use it: the provider and the
    name it was configured under. *)
Record Oauth2Provider := {
  idp : Provider;
  dbp : string
}.

Definition set_Auth (auth : string) (c : Config) : Config :=
  {| Root := Root c; Port := Port c; Themes := Themes c; HTTPBase := HTTPBase c;
     Auth := auth; Discord := Discord c; Reddit := Reddit c; GitHub := GitHub c;
     Google := Google c; Facebook := Facebook c; Microsoft := Microsoft c;
     Providers := Providers c; CustomIds := CustomIds c |}.

(** The type assertion of line 119 on what [findStructValueWithTag]
    gave, to a pointer to [ConfigIDP]: only a field of that pointer type
    passes it. *)
Definition assertConfigIDP (v : reflect_Value) : outcome (option ConfigIDP) :=
  match v with
  | RIDP p => Returns p
  | RInvalid => Panics "reflect: call of Interface on zero Value"
  | _ => Panics "interface conversion: interface {} is not *main.ConfigIDP"
  end.

(** Lines 115-149: the identity provider and its client credentials.
    [Oauth2Providers] is the table of the built-in providers, which is
    not part of the source at hand and is taken as a parameter.  The
    result is the configuration (its [Auth] may have been defaulted),
    [oauth2AppConfig] and [oauth2Provider]; [None] is the process dying
    in [DieOnError]. *)
Definition discoverOAuth2 (Oauth2Providers : gmap string Oauth2Provider)
    (config : Config)
  : outcome (option (Config * ConfigIDP * Oauth2Provider)) :=
  let config :=
    if Nat.eqb (String.length (Auth config)) 0
    then set_Auth "discord" config else config in
  match Oauth2Providers !! Auth config with
  | Some cfp =>
      letp v <~ findStructValueWithTag (Some config) config "json" (Auth config) in
      letp cidp <~ assertConfigIDP v in
      match cidp with
      | None => Returns None
      | Some c =>
          if String.eqb (idp_ID c) "" then Returns None
          else if String.eqb (idp_Secret c) "" then Returns None
          else Returns (Some (config, c, cfp))
      end
  | None =>
      match List.find (fun item => String.eqb (prov_ID item) (Auth config))
                      (Providers config) with
      | None => Returns None
      | Some item =>
          let oauth2Provider := {| idp := item; dbp := Auth config |} in
          match List.find (fun item => String.eqb (idp_Auth item) (Auth config))
                          (CustomIds config) with
          | None => Returns None
          | Some item => Returns (Some (config, item, oauth2Provider))
          end
      end
  end.

(** ** The start of the process (main.go, lines 54-250) *)

(** [DoesFileExist(path)] of go-util, for the file [name] of the
    directory [dir]. *)
Definition DoesFileExist (wd : world) (dir name : string) : bool :=
  match disk wd !! dir with
  | Some files => bool_decide (is_Some (files !! name))
  | None => false
  end.

(** Lines 75-79: a blank configuration file is written when there is
    none.  [os.MkdirAll] keeps a directory that is there with what it
    holds; the results of both calls are dropped, as in the source. *)
Definition ensureConfig (metaDir : string) (wd : world) : world :=
  if negb (DoesFileExist wd metaDir "/config.json") then
    let files := default ∅ (disk wd !! metaDir) in
    {| disk := <[metaDir := <["/config.json" := "{}"]> files]> (disk wd);
       bundle := bundle wd |}
  else wd.

(** Modelled from the spec: [initFsWatcher] (line 221) is not part of the
    source at hand.  The spec has the index seeded at every start by a
    full walk of the served root: the files that the disk holds below
    it. *)
Definition seedIndex (wd : world) (root : string) : gmap string string :=
  default ∅ (disk wd !! root).

(** The command line (lines 57-63). *)
Record Flags := {
  flagRoot : string;
  flagPort : Z;
  flagAdmin : string;
  flagTheme : list string;
  flagBase : string;
  flagRType : string
}.

(** What a completed start leaves: on disk and in the store, which stay
    when the process ends, and in the variables of the process. *)
Record Process := {
  p_files : world;
  p_database : DB;
  p_config : Config;
  p_rootDir : string;
  p_oauth2AppConfig : ConfigIDP;
  p_oauth2Provider : Oauth2Provider;
  p_httpBase : string;
  p_port : Z;
  p_wwFFS : list FileSystem;
  p_index : gmap string string
}.

Section Startup.

(** The home directory, the decoding of the configuration file by
    [etc.InitConfig], the resolution of the root path and the table of
    the built-in providers are not part of the source at hand. *)
Variable homedir : string.
Variable InitConfig : option string -> Config.
Variable absClean : string -> string.
Variable Oauth2Providers : gmap string Oauth2Provider.

Definition metaDir_of : string := homedir +:+ "/.config/andesite".

(** [main], from the configuration file to the overlay, on the disk and
    the store that the process finds.  [Returns None] is the process
    dying in [DieOnError]. *)
Definition startup (fl : Flags) (wd : world) (db : DB)
  : outcome (option Process) :=
  let metaDir := metaDir_of in
  let wd := ensureConfig metaDir wd in
  let config :=
    InitConfig (match disk wd !! metaDir with
                | Some files => files !! "/config.json"
                | None => None
                end) in
  let port := opPort (flagPort fl) (Port config) in
  let base := opBase (flagBase fl) config in
  match configureRoot wd absClean (flagRoot fl) (flagRType fl) config with
  | None => Returns None
  | Some root =>
      letp found <~ discoverOAuth2 Oauth2Providers config in
      match found with
      | None => Returns None
      | Some (config, cidp, cfp) =>
          let db := createTables db in
          match adminBootstrap (flagAdmin fl) db with
          | None => Returns None
          | Some db =>
              let index := seedIndex wd root in
              match setupOverlay wd metaDir (flagTheme fl) (Themes config) with
              | None => Returns None
              | Some dirs =>
                  Returns (Some {| p_files := wd; p_database := db;
                                   p_config := config; p_rootDir := root;
                                   p_oauth2AppConfig := cidp;
                                   p_oauth2Provider := cfp;
                                   p_httpBase := base; p_port := port;
                                   p_wwFFS := dirs; p_index := index |})
              end
          end
      end
  end.

End Startup.

(** ** Sample inputs *)

Definition sample_Config : Config :=
  {| Root := "/srv/files"; Port := 0; Themes := []; HTTPBase := "";
     Auth := "discord";
     Discord := Some {| idp_Auth := ""; idp_ID := "42"; idp_Secret := "s3" |};
     Reddit := None; GitHub := None; Google := None; Facebook := None;
     Microsoft := None; Providers := []; CustomIds := [] |}.

Definition sample_DB : DB :=
  {| schema := schema (createTables empty_DB);
     users := [ {| user_id := 7; user_snowflake := "1234";
                   user_admin := false; user_name := "kyle" |};
                {| user_id := 3; user_snowflake := "99";
                   user_admin := true; user_name := "root" |} ];
     access := [ {| access_id := 1; access_user := 3; access_path := "/" |};
                 {| access_id := 2; access_user := 7; access_path := "/docs" |} ];
     shares := [] |}.

(** A stand-in for the rendering of [response.hbs]: the title, the
    message and the link of the context, one after the other. *)
Definition sample_Render (template : string) (context : gmap string string)
  : string :=
  default "" (context !! "title") +:+ ": "
    +:+ default "" (context !! "message") +:+ " "
    +:+ default "" (context !! "link").

Definition sample_world : world :=
  {| disk := <["/meta/themes/dark" := {["/logo.png" := "dark logo"]}]>
               (<["/meta/themes/blue" := {["/style.css" := "blue style"]}]>
                  (<["./www/" := {["/style.css" := "local style"]}]> ∅));
     bundle := <["/style.css" := "default style"]>
                 (<["/response.hbs" := "{{title}}"]> ∅) |}.

Definition sample_globals : globals :=
  {| httpBase := "/";
     oauth2Provider_idp := {| prov_ID := "discord"; prov_NamePrefix := "@" |};
     database := sample_DB;
     wwFFS := [themeDir "/meta" "blue"; Dir "./www/"; Box "" "./www/"];
     files := sample_world |}.

(** A request of a visitor who is not logged in. *)
Definition anonymous_Request : Request :=
  {| Method := "POST"; Values := ∅; ParseForm := Some ∅ |}.

(** A request whose session has a name and no user. *)
Definition nameonly_Request : Request :=
  {| Method := "POST"; Values := {["name" := VString "kyle"]};
     ParseForm := Some ∅ |}.

Definition sample_Oauth2Provider : Oauth2Provider :=
  {| idp := {| prov_ID := "discord"; prov_NamePrefix := "@" |};
     dbp := "discord" |}.

Definition sample_Oauth2Providers : gmap string Oauth2Provider :=
  {["discord" := sample_Oauth2Provider]}.

(** A request of a logged-in visitor whom the [users] table lacks. *)
Definition stranger_Request : Request :=
  {| Method := "POST";
     Values := <["user" := VString "31337"]> {["name" := VString "eve"]};
     ParseForm := Some ∅ |}.

(** A request of the member of the sample store who is not an admin. *)
Definition member_Request : Request :=
  {| Method := "POST";
     Values := <["user" := VString "1234"]> {["name" := VString "kyle"]};
     ParseForm := Some ∅ |}.

(** A disk with a theme and a local asset directory and no configuration
    file, a store of an earlier layout ([users] without its last two
    columns, and a table of another name) and a command line. *)
Definition sample_home_world : world :=
  {| disk := <["/home/a/.config/andesite/themes/blue"
                 := {["/style.css" := "blue style"]}]>
               (<["./www/" := {["/style.css" := "local style"]}]> ∅);
     bundle := <["/style.css" := "default style"]>
                 (<["/response.hbs" := "{{title}}"]> ∅) |}.

Definition sample_legacy_DB : DB :=
  {| schema := <["legacy" := [("k", "text")]]>
                 (<["users" := [("id", "int primary key"); ("snowflake", "text")]]> ∅);
     users := users sample_DB;
     access := access sample_DB;
     shares := [] |}.

Definition sample_Flags : Flags :=
  {| flagRoot := "./www/"; flagPort := 0; flagAdmin := "555";
     flagTheme := ["blue"]; flagBase := ""; flagRType := "dir" |}.

Definition sample_startup : outcome (option Process) :=
  startup "/home/a" (fun _ => sample_Config) (fun path => path)
          sample_Oauth2Providers sample_Flags sample_home_world sample_legacy_DB.

Definition sample_Process : Process :=
  match sample_startup with
  | Returns (Some p) => p
  | _ =>
      {| p_files := sample_home_world; p_database := sample_legacy_DB;
         p_config := sample_Config; p_rootDir := "";
         p_oauth2AppConfig := {| idp_Auth := ""; idp_ID := ""; idp_Secret := "" |};
         p_oauth2Provider := sample_Oauth2Provider;
         p_httpBase := ""; p_port := 0; p_wwFFS := []; p_index := ∅ |}
  end.

(** * Properties *)

(** ** Option helpers *)

Lemma findFirstNonZero_zeros (values : list Z) :
  Forall (fun x => x = 0) values -> findFirstNonZero values = 0.
Proof.
  induction 1 as [|x l Hx _ IH]; simpl; [reflexivity|].
  subst x. simpl. exact IH.
Qed.

Lemma findFirstNonZero_app_zeros (pre rest : list Z) :
  Forall (fun x => x = 0) pre ->
  findFirstNonZero (pre ++ rest) = findFirstNonZero rest.
Proof.
  induction 1 as [|x l Hx _ IH]; simpl; [reflexivity|].
  subst x. simpl. exact IH.
Qed.

Lemma findFirstNonZero_head (z : Z) (rest : list Z) :
  z <> 0 -> findFirstNonZero (z :: rest) = z.
Proof.
  intros Hz. simpl. destruct (Z.eqb_spec z 0); [contradiction|reflexivity].
Qed.

(** C9. [findFirstNonZero] returns its first non-zero argument: in a list
    that starts with zeros only and continues with a non-zero [z] the
    result is [z], and in a list of zeros only it is [0].  The port of
    the server is the [--port] flag when that is not zero, else the port
    of the configuration file when that is not zero, else 8000. *)
Theorem findFirstNonZero_effective_port
    (pre post : list Z) (z flagPort configPort : Z) :
  Forall (fun x => x = 0) pre ->
  z <> 0 ->
  findFirstNonZero (pre ++ z :: post) = z
  /\ findFirstNonZero pre = 0
  /\ opPort flagPort configPort =
       (if flagPort =? 0 then if configPort =? 0 then 8000 else configPort
        else flagPort)
  /\ opPort 0 0 = 8000.
Proof.
  intros Hpre Hz. repeat split.
  - rewrite findFirstNonZero_app_zeros by assumption.
    now apply findFirstNonZero_head.
  - now apply findFirstNonZero_zeros.
  - unfold opPort. simpl.
    destruct (flagPort =? 0); simpl; [|reflexivity].
    destruct (configPort =? 0); reflexivity.
Qed.

Lemma findFirstNonZero_effective_port_witness :
  findFirstNonZero ([0; 0] ++ 8080 :: [9090]) = 8080
  /\ findFirstNonZero [0; 0] = 0
  /\ opPort 0 3000 =
       (if 0 =? 0 then if 3000 =? 0 then 8000 else 3000 else 0)
  /\ opPort 0 0 = 8000.
Proof.
  apply (findFirstNonZero_effective_port [0; 0] [9090] 8080 0 3000).
  - repeat constructor.
  - lia.
Defined.

(** ** Size printer *)

Lemma wrap64_id (z : Z) : is_int64 z -> wrap64 z = z.
Proof.
  unfold is_int64, int64_min, int64_max, wrap64.
  change (2 ^ 63) with 9223372036854775808.
  change (2 ^ 64) with 18446744073709551616.
  intros Hz. rewrite Z.mod_small; lia.
Qed.

Lemma quot_1024_int64 (n : Z) :
  1024 <= n -> is_int64 n -> is_int64 (Z.quot n 1024) /\ Z.quot n 1024 < n.
Proof.
  unfold is_int64, int64_min, int64_max.
  change (2 ^ 63) with 9223372036854775808.
  intros Hge Hn.
  assert (0 <= Z.quot n 1024) by (apply Z.quot_pos; lia).
  assert (Z.quot n 1024 < n) by (apply Z.quot_lt; lia).
  lia.
Qed.

Lemma reduceLoop_enough_fuel (fuel : nat) (n div : Z) (exp : nat) :
  is_int64 n ->
  n < 1024 ^ Z.of_nat (S fuel) ->
  reduceLoop fuel 1024 n div exp <> None.
Proof.
  revert n div exp.
  induction fuel as [|fuel IH]; intros n div exp Hint Hn; simpl reduceLoop.
  - destruct (Z.geb_spec n 1024) as [Hge|Hlt]; [|discriminate].
    change (1024 ^ Z.of_nat 1) with 1024 in Hn. lia.
  - destruct (Z.geb_spec n 1024) as [Hge|Hlt]; [|discriminate].
    destruct (quot_1024_int64 n Hge Hint) as [Hq _].
    rewrite (wrap64_id _ Hq).
    apply IH; [exact Hq|].
    rewrite Nat2Z.inj_succ, Z.pow_succ_r in Hn by lia.
    apply Z.quot_lt_upper_bound; lia.
Qed.

(** The fuel of [byteCountIEC] suffices for every [int64]: the model
    never stops for lack of it. *)
Lemma byteCountIEC_total (fmt_f1 : Z -> Z -> string) (b : Z) :
  is_int64 b -> byteCountIEC fmt_f1 b <> None.
Proof.
  intros Hb. unfold byteCountIEC, reduceNumber.
  destruct (Z.ltb_spec b 1024) as [Hlt|Hge]; [discriminate|].
  cbn [Z.eqb].
  destruct (quot_1024_int64 b Hge Hb) as [Hq _].
  rewrite (wrap64_id _ Hq).
  pose proof (reduceLoop_enough_fuel iec_fuel (Z.quot b 1024) 1024 0%nat Hq) as Hfuel.
  destruct (reduceLoop iec_fuel 1024 (Z.quot b 1024) 1024 0) as [[div exp]|].
  - destruct (String.get exp "KMGTPEZY"); discriminate.
  - exfalso. apply Hfuel; [|reflexivity].
    apply Z.quot_lt_upper_bound; [lia|lia|].
    destruct Hb as [_ Hhi]. unfold int64_max in Hhi. unfold iec_fuel.
    change (1024 ^ Z.of_nat 8) with (2 ^ 80).
    assert (2 ^ 63 < 2 ^ 80) by (apply Z.pow_lt_mono_r; lia). lia.
Qed.

Lemma reduceLoop_exp_bound (fuel : nat) (unit n div d : Z) (exp e : nat) :
  reduceLoop fuel unit n div exp = Some (d, e) -> (e <= exp + fuel)%nat.
Proof.
  revert n div exp. induction fuel as [|fuel IH]; intros n div exp; simpl.
  - destruct (n >=? unit); [discriminate|]. intros [= _ <-]. lia.
  - destruct (n >=? unit).
    + intros H. apply IH in H. lia.
    + intros [= _ <-]. lia.
Qed.

(** For every [int64] the printer returns: the index into the prefixes
    stays in range. *)
Lemma byteCountIEC_returns (fmt_f1 : Z -> Z -> string) (b : Z) :
  is_int64 b -> exists s, byteCountIEC fmt_f1 b = Some (Returns s).
Proof.
  intros Hb. pose proof (byteCountIEC_total fmt_f1 b Hb) as Htotal.
  unfold byteCountIEC, reduceNumber in *.
  destruct (b <? 1024); [eexists; reflexivity|].
  cbn [Z.eqb] in *.
  destruct (reduceLoop iec_fuel 1024 _ 1024 0) as [[div exp]|] eqn:Hloop;
    [|contradiction].
  apply reduceLoop_exp_bound in Hloop. unfold iec_fuel in Hloop.
  do 8 (destruct exp as [|exp]; [eexists; reflexivity|]). lia.
Qed.

Lemma fmt_d_decimal_below_1024 :
  forallb (fun n => is_decimal_of (fmt_d (Z.of_nat n)) (Z.of_nat n))
          (seq 0 1024) = true.
Proof. vm_compute. reflexivity. Qed.

(** C10. For every [b] with [0 <= b < 1024], [byteCountIEC b] returns the
    decimal representation of [b] followed by [" B"]: [reduceNumber]
    takes its first branch, no prefix letter is printed. *)
Theorem byteCountIEC_below_unit (fmt_f1 : Z -> Z -> string) (b : Z) :
  0 <= b < 1024 ->
  is_decimal_of (fmt_d b) b = true
  /\ byteCountIEC fmt_f1 b = Some (Returns (fmt_d b +:+ " B")).
Proof.
  intros Hb. split.
  - pose proof fmt_d_decimal_below_1024 as Hall.
    rewrite forallb_forall in Hall.
    specialize (Hall (Z.to_nat b)).
    rewrite Z2Nat.id in Hall by lia.
    apply Hall. apply in_seq. lia.
  - unfold byteCountIEC, reduceNumber.
    destruct (Z.ltb_spec b 1024) as [_|Hge]; [reflexivity|lia].
Qed.

Lemma byteCountIEC_below_unit_witness :
  is_decimal_of (fmt_d 1023) 1023 = true
  /\ byteCountIEC (fun _ _ => "") 1023 = Some (Returns (fmt_d 1023 +:+ " B")).
Proof.
  apply (byteCountIEC_below_unit (fun _ _ => "") 1023). lia.
Defined.

Example byteCountIEC_1023 :
  byteCountIEC (fun _ _ => "") 1023 = Some (Returns "1023 B").
Proof. reflexivity. Qed.

Example byteCountIEC_0 :
  byteCountIEC (fun _ _ => "") 0 = Some (Returns "0 B").
Proof. reflexivity. Qed.

Example byteCountIEC_1024 :
  byteCountIEC (fun _ _ => "1.0") 1024 = Some (Returns "1.0 KiB").
Proof. reflexivity. Qed.

(** ** Reflection over the configuration *)

Lemma findField_first (fields : list StructField) (ttype tag : string)
    (i : nat) (f : StructField) :
  fields !! i = Some f ->
  Tag_Get (Tag f) ttype = tag ->
  (forall j g, (j < i)%nat -> fields !! j = Some g ->
               Tag_Get (Tag g) ttype <> tag) ->
  findField fields ttype tag = Some f.
Proof.
  revert i. induction fields as [|f0 fields IH]; intros i Hi Htag Hbefore.
  - destruct i; discriminate.
  - destruct i as [|i]; simpl in *.
    + injection Hi as ->. rewrite Htag, String.eqb_refl. reflexivity.
    + destruct (String.eqb_spec (Tag_Get (Tag f0) ttype) tag) as [Heq|_].
      * exfalso. apply (Hbefore 0%nat f0); [lia|reflexivity|exact Heq].
      * apply (IH i); [exact Hi|exact Htag|].
        intros j g0 Hj Hg. apply (Hbefore (S j) g0); [lia|exact Hg].
Qed.

Lemma findField_none (fields : list StructField) (ttype tag : string) :
  Forall (fun f => Tag_Get (Tag f) ttype <> tag) fields ->
  findField fields ttype tag = None.
Proof.
  induction 1 as [|f0 fields Hf0 _ IH]; simpl; [reflexivity|].
  destruct (String.eqb_spec (Tag_Get (Tag f0) ttype) tag); [contradiction|exact IH].
Qed.

(** Looking a field up by the name of the [i]-th field gives the [i]-th
    field: the names of [Config] are distinct. *)
Lemma FieldByName_Field (v : Config) (i : nat) (f : StructField) :
  Config_fields !! i = Some f -> FieldByName v (Name f) = Config_Field v i.
Proof.
  intros Hi.
  do 13 (destruct i as [|i]; [injection Hi as <-; reflexivity|]).
  discriminate.
Qed.

(** Without a matching field the function does not return: it panics in
    [reflect.Zero(nil)]. *)
Lemma findStructValueWithTag_no_match {A : Type} (item : A) (v : Config)
    (ttype tag : string) :
  Forall (fun f => Tag_Get (Tag f) ttype <> tag) Config_fields ->
  findStructValueWithTag (Some v) item ttype tag = Panics "reflect: Zero(nil)".
Proof.
  intros Hnone. unfold findStructValueWithTag.
  rewrite (findField_none _ _ _ Hnone). reflexivity.
Qed.

(** C8. [findStructValueWithTag] does not look at [item]: called with two
    arguments of any types it gives the same result, for every
    configuration, [ttype] and [tag].  What it returns is the field of
    the global configuration that comes first, in declaration order,
    among the fields whose tag of kind [ttype] is [tag]. *)
Theorem findStructValueWithTag_ignores_item {A B : Type} (item : A) (item' : B)
    (v : Config) (ttype tag : string) (i : nat) (f : StructField) :
  Config_fields !! i = Some f ->
  Tag_Get (Tag f) ttype = tag ->
  (forall j g, (j < i)%nat -> Config_fields !! j = Some g ->
               Tag_Get (Tag g) ttype <> tag) ->
  findStructValueWithTag (Some v) item ttype tag = Returns (Config_Field v i)
  /\ (forall (config : option Config) (ttype' tag' : string),
        findStructValueWithTag config item ttype' tag'
        = findStructValueWithTag config item' ttype' tag').
Proof.
  intros Hi Htag Hbefore. split.
  - unfold findStructValueWithTag.
    rewrite (findField_first _ _ _ i f Hi Htag Hbefore).
    rewrite (FieldByName_Field v i f Hi). reflexivity.
  - intros config ttype' tag'. reflexivity.
Qed.

Lemma findStructValueWithTag_ignores_item_witness :
  findStructValueWithTag (Some sample_Config) tt "json" "discord"
    = Returns (Config_Field sample_Config 5)
  /\ (forall (config : option Config) (ttype' tag' : string),
        findStructValueWithTag config tt ttype' tag'
        = findStructValueWithTag config 7 ttype' tag').
Proof.
  apply (findStructValueWithTag_ignores_item tt 7 sample_Config "json" "discord"
           5%nat {| Name := "Discord"; Tag := [("json", "discord")] |}).
  - reflexivity.
  - reflexivity.
  - intros j g0 Hj Hg.
    do 5 (destruct j as [|j]; [injection Hg as <-; discriminate|]).
    lia.
Defined.

(** A tag kind that no field carries reads as the empty string on every
    field, so the first field, [Root], is found for the empty tag. *)
Example findStructValueWithTag_yaml_empty :
  findStructValueWithTag (Some sample_Config) tt "yaml" ""
    = Returns (RString "/srv/files").
Proof. reflexivity. Qed.

(** ** The asset overlay *)

Lemma themeLoop_all_exist (wd : world) (metaDir : string)
    (items : list string) (dirs : list FileSystem) :
  Forall (fun t => DoesDirectoryExist wd (metaDir +:+ "/themes/" +:+ t) = true) items ->
  themeLoop wd metaDir items dirs
  = Some (dirs ++ map (themeDir metaDir) items)%list.
Proof.
  intros Hall. revert dirs.
  induction Hall as [|t items Ht _ IH]; intros dirs; simpl.
  - rewrite app_nil_r. reflexivity.
  - rewrite Ht, IH, <- app_assoc. reflexivity.
Qed.

(** First match wins: the source at position [k] answers when no source
    before it has the path. *)
Lemma Multiplex_Open_first (wd : world) (dirs : list FileSystem)
    (path : string) (k : nat) (fs : FileSystem) (c : string) :
  dirs !! k = Some fs ->
  Open wd fs path = Some c ->
  (forall j fs', (j < k)%nat -> dirs !! j = Some fs' -> Open wd fs' path = None) ->
  Multiplex_Open wd dirs path = Some c.
Proof.
  revert k. induction dirs as [|d dirs IH]; intros k Hk Hc Hbefore.
  - destruct k; discriminate.
  - destruct k as [|k]; simpl in *.
    + injection Hk as ->. rewrite Hc. reflexivity.
    + rewrite (Hbefore 0%nat d) by (lia || reflexivity).
      apply (IH k); [exact Hk|exact Hc|].
      intros j fs' Hj Hfs'. apply (Hbefore (S j) fs'); [lia|exact Hfs'].
Qed.

(** Not found only when no source has the path. *)
Lemma Multiplex_Open_none (wd : world) (dirs : list FileSystem) (path : string) :
  Multiplex_Open wd dirs path = None <->
  Forall (fun fs => Open wd fs path = None) dirs.
Proof.
  induction dirs as [|d dirs IH]; simpl.
  - split; [constructor|reflexivity].
  - destruct (Open wd d path) as [c|] eqn:Hd.
    + split; [discriminate|]. intros H. inversion H; congruence.
    + rewrite IH. split; [intros H; constructor; assumption|].
      intros H. inversion H. assumption.
Qed.

(** C4. When every theme named on the command line or in the
    configuration file is a directory, the overlay is the list of the
    theme directories, those of the [--theme] flags first and in order,
    then those of the configuration file, followed by the local [www]
    directory and last the embedded bundle.  Opening a path that a theme
    directory has returns the content of the first theme directory that
    has it, whatever the local directory and the embedded bundle hold
    under that path. *)
Theorem setupOverlay_theme_wins (wd : world) (metaDir : string)
    (flagTheme configThemes : list string) (path : string)
    (k : nat) (theme : string) (c : string) :
  Forall (fun t => DoesDirectoryExist wd (metaDir +:+ "/themes/" +:+ t) = true)
         (flagTheme ++ configThemes) ->
  (flagTheme ++ configThemes)%list !! k = Some theme ->
  Open wd (themeDir metaDir theme) path = Some c ->
  (forall j t, (j < k)%nat -> (flagTheme ++ configThemes)%list !! j = Some t ->
               Open wd (themeDir metaDir t) path = None) ->
  exists dirs : list FileSystem,
    setupOverlay wd metaDir flagTheme configThemes = Some dirs
    /\ dirs = (map (themeDir metaDir) flagTheme
               ++ map (themeDir metaDir) configThemes
               ++ [Dir "./www/"; Box "" "./www/"])%list
    /\ Multiplex_Open wd dirs path = Some c.
Proof.
  intros Hall Hk Hc Hbefore.
  apply Forall_app in Hall as [Hflag Hconf].
  eexists. split; [|split; [reflexivity|]].
  - unfold setupOverlay.
    rewrite (themeLoop_all_exist _ _ _ _ Hflag).
    rewrite (themeLoop_all_exist _ _ _ _ Hconf).
    simpl. rewrite <- !app_assoc. reflexivity.
  - rewrite app_assoc, <- map_app.
    apply (Multiplex_Open_first wd _ path k (themeDir metaDir theme) c).
    + rewrite lookup_app_l.
      * change (map (themeDir metaDir) (flagTheme ++ configThemes))
          with (themeDir metaDir <$> (flagTheme ++ configThemes)%list).
        rewrite list_lookup_fmap, Hk. reflexivity.
      * rewrite length_map. apply lookup_lt_Some in Hk. exact Hk.
    + exact Hc.
    + intros j fs' Hj Hfs'.
      assert (Hlen : (j < length (flagTheme ++ configThemes)%list)%nat).
      { apply lookup_lt_Some in Hk. lia. }
      rewrite lookup_app_l in Hfs' by (rewrite length_map; exact Hlen).
      change (map (themeDir metaDir) (flagTheme ++ configThemes))
        with (themeDir metaDir <$> (flagTheme ++ configThemes)%list) in Hfs'.
      rewrite list_lookup_fmap in Hfs'.
      destruct ((flagTheme ++ configThemes)%list !! j) as [t|] eqn:Ht;
        [|discriminate].
      injection Hfs' as <-. apply (Hbefore j t Hj Ht).
Qed.

Lemma setupOverlay_theme_wins_witness :
  exists dirs : list FileSystem,
    setupOverlay sample_world "/meta" ["dark"] ["blue"] = Some dirs
    /\ dirs = (map (themeDir "/meta") ["dark"]
               ++ map (themeDir "/meta") ["blue"]
               ++ [Dir "./www/"; Box "" "./www/"])%list
    /\ Multiplex_Open sample_world dirs "/style.css" = Some "blue style".
Proof.
  apply (setupOverlay_theme_wins sample_world "/meta" ["dark"] ["blue"]
           "/style.css" 1%nat "blue" "blue style").
  - repeat constructor.
  - reflexivity.
  - reflexivity.
  - intros j t Hj Ht. destruct j as [|j]; [|lia].
    injection Ht as <-. reflexivity.
Defined.

(** The overlay of the spec, a theme directory before the default
    bundle, both with the asset: the theme's content is served. *)
Example Multiplex_Open_theme_before_bundle :
  Multiplex_Open sample_world [themeDir "/meta" "blue"; Box "" "./www/"]
                 "/style.css" = Some "blue style"
  /\ Open sample_world (Box "" "./www/") "/style.css" = Some "default style".
Proof. split; reflexivity. Qed.

(** ** The persisted layout *)

Lemma Contains_true (stack : list string) (needle : string) :
  Contains stack needle = true <-> In needle stack.
Proof.
  unfold Contains. rewrite existsb_exists. split.
  - intros [x [Hin Heq]]. apply String.eqb_eq in Heq. subst. exact Hin.
  - intros Hin. exists needle. split; [exact Hin|apply String.eqb_refl].
Qed.

Lemma add_column_keeps (cols : list (string * string)) (col : string * string)
    (n : string) :
  In n (map fst cols) -> In n (map fst (add_column cols col)).
Proof.
  intros Hin. unfold add_column.
  destruct (Contains (map fst cols) (fst col)); [exact Hin|].
  rewrite map_app. apply in_or_app. left. exact Hin.
Qed.

Lemma add_column_present (cols : list (string * string)) (col : string * string) :
  In (fst col) (map fst cols) -> add_column cols col = cols.
Proof.
  intros Hin. unfold add_column.
  apply Contains_true in Hin. rewrite Hin. reflexivity.
Qed.

Lemma add_column_adds (cols : list (string * string)) (col : string * string) :
  In (fst col) (map fst (add_column cols col)).
Proof.
  unfold add_column.
  destruct (Contains (map fst cols) (fst col)) eqn:Hc.
  - apply Contains_true. exact Hc.
  - rewrite map_app. apply in_or_app. right. left. reflexivity.
Qed.

Lemma fold_add_column_keeps (columns cols : list (string * string)) (n : string) :
  In n (map fst cols) -> In n (map fst (fold_left add_column columns cols)).
Proof.
  revert cols. induction columns as [|col columns IH]; intros cols Hin; simpl.
  - exact Hin.
  - apply IH. apply add_column_keeps. exact Hin.
Qed.

Lemma fold_add_column_adds (columns cols : list (string * string)) (col : string * string) :
  In col columns -> In (fst col) (map fst (fold_left add_column columns cols)).
Proof.
  revert cols. induction columns as [|c columns IH]; intros cols Hin; simpl.
  - destruct Hin.
  - destruct Hin as [->|Hin].
    + apply fold_add_column_keeps. apply add_column_adds.
    + apply IH. exact Hin.
Qed.

Lemma fold_add_column_present (columns cols : list (string * string)) :
  (forall col, In col columns -> In (fst col) (map fst cols)) ->
  fold_left add_column columns cols = cols.
Proof.
  revert cols. induction columns as [|c columns IH]; intros cols Hall; simpl.
  - reflexivity.
  - rewrite add_column_present by (apply Hall; left; reflexivity).
    apply IH. intros col Hin. apply Hall. right. exact Hin.
Qed.

(** Creating a table a second time changes nothing. *)
Lemma CreateTable_idempotent (name : string) (pk : string * string)
    (columns : list (string * string)) (db : DB) :
  CreateTable name pk columns (CreateTable name pk columns db)
  = CreateTable name pk columns db.
Proof.
  unfold CreateTable, set_schema. simpl.
  rewrite lookup_insert_eq, insert_insert_eq.
  rewrite fold_add_column_present; [reflexivity|].
  intros col Hin. apply fold_add_column_adds. exact Hin.
Qed.

Lemma CreateTable_comm (n1 n2 : string) (pk1 pk2 : string * string)
    (c1 c2 : list (string * string)) (db : DB) :
  n1 <> n2 ->
  CreateTable n1 pk1 c1 (CreateTable n2 pk2 c2 db)
  = CreateTable n2 pk2 c2 (CreateTable n1 pk1 c1 db).
Proof.
  intros Hne. unfold CreateTable, set_schema. simpl.
  rewrite !lookup_insert_ne by congruence.
  rewrite insert_insert_ne by congruence. reflexivity.
Qed.

Lemma createTables_idempotent (db : DB) :
  createTables (createTables db) = createTables db.
Proof.
  unfold createTables.
  set (u := CreateTable "users" ("id", "int primary key")
              [("snowflake", "text"); ("admin", "tinyint(1)"); ("name", "text")]).
  set (a := CreateTable "access" ("id", "int primary key")
              [("user", "int"); ("path", "text")]).
  set (s := CreateTable "shares" ("id", "int primary key")
              [("hash", "text"); ("path", "text")]).
  assert (Hus : forall y, u (s y) = s (u y))
    by (intros y; apply CreateTable_comm; discriminate).
  assert (Has : forall y, a (s y) = s (a y))
    by (intros y; apply CreateTable_comm; discriminate).
  assert (Hua : forall y, u (a y) = a (u y))
    by (intros y; apply CreateTable_comm; discriminate).
  assert (Hss : forall y, s (s y) = s y)
    by (intros y; apply CreateTable_idempotent).
  assert (Haa : forall y, a (a y) = a y)
    by (intros y; apply CreateTable_idempotent).
  assert (Huu : forall y, u (u y) = u y)
    by (intros y; apply CreateTable_idempotent).
  rewrite Hus, Has, Hss, Hua, Haa, Huu. reflexivity.
Qed.

Lemma CreateTable_has_columns (name : string) (pk : string * string)
    (columns : list (string * string)) (db : DB) :
  exists cols,
    schema (CreateTable name pk columns db) !! name = Some cols
    /\ forall col, In col columns -> In (fst col) (map fst cols).
Proof.
  unfold CreateTable, set_schema. simpl. eexists. split.
  - apply lookup_insert_eq.
  - intros col Hin. apply fold_add_column_adds. exact Hin.
Qed.

(** The tables of the store.  On a first start the store holds exactly
    three tables: [users] with the columns [id], [snowflake], [admin],
    [name], [access] with [id], [user], [path], and [shares] with [id],
    [hash], [path].  Every start runs the creation again, which changes
    nothing once the tables are there, never touches a row, and leaves
    every table of another name as it was. *)
Theorem createTables_layout (db : DB) (name : string) :
  name <> "users" -> name <> "access" -> name <> "shares" ->
  dom (schema (createTables empty_DB)) = ({["users"; "access"; "shares"]} : gset string)
  /\ column_names (createTables empty_DB) "users"
     = Some ["id"; "snowflake"; "admin"; "name"]
  /\ column_names (createTables empty_DB) "access" = Some ["id"; "user"; "path"]
  /\ column_names (createTables empty_DB) "shares" = Some ["id"; "hash"; "path"]
  /\ createTables (createTables db) = createTables db
  /\ users (createTables db) = users db
  /\ access (createTables db) = access db
  /\ shares (createTables db) = shares db
  /\ schema (createTables db) !! name = schema db !! name.
Proof.
  intros Hu Ha Hs.
  repeat match goal with |- _ /\ _ => split end.
  - vm_compute. reflexivity.
  - reflexivity.
  - reflexivity.
  - reflexivity.
  - apply createTables_idempotent.
  - reflexivity.
  - reflexivity.
  - reflexivity.
  - unfold createTables, CreateTable, set_schema. simpl.
    rewrite !lookup_insert_ne by congruence. reflexivity.
Qed.

Lemma createTables_layout_witness :
  dom (schema (createTables empty_DB)) = ({["users"; "access"; "shares"]} : gset string)
  /\ column_names (createTables empty_DB) "users"
     = Some ["id"; "snowflake"; "admin"; "name"]
  /\ column_names (createTables empty_DB) "access" = Some ["id"; "user"; "path"]
  /\ column_names (createTables empty_DB) "shares" = Some ["id"; "hash"; "path"]
  /\ createTables (createTables empty_DB) = createTables empty_DB
  /\ users (createTables empty_DB) = users empty_DB
  /\ access (createTables empty_DB) = access empty_DB
  /\ shares (createTables empty_DB) = shares empty_DB
  /\ schema (createTables empty_DB) !! "sessions" = schema empty_DB !! "sessions".
Proof.
  apply (createTables_layout empty_DB "sessions"); discriminate.
Defined.

(** The second column of [users] is called [snowflake]; no column is
    called [externalId]. *)
Lemma createTables_users_columns_differ :
  column_names (createTables empty_DB) "users"
  <> Some ["id"; "externalId"; "admin"; "name"].
Proof. vm_compute. discriminate. Qed.

(** ** Admin bootstrap *)

Lemma fold_max_ge_init (l : list Z) (i : Z) : i <= fold_left Z.max l i.
Proof.
  revert i. induction l as [|x l IH]; intros i; simpl; [lia|].
  specialize (IH (Z.max i x)). lia.
Qed.

Lemma fold_max_ge_in (l : list Z) (i x : Z) :
  In x l -> x <= fold_left Z.max l i.
Proof.
  revert i. induction l as [|y l IH]; intros i Hin; simpl; [destruct Hin|].
  destruct Hin as [->|Hin].
  - pose proof (fold_max_ge_init l (Z.max i x)). lia.
  - apply IH. exact Hin.
Qed.

Lemma last_id_ge (ids : list Z) (x : Z) : In x ids -> x <= last_id ids.
Proof.
  destruct ids as [|i rest]; simpl; [intros []|].
  intros [<-|Hin]; [apply fold_max_ge_init|apply fold_max_ge_in; exact Hin].
Qed.

(** The next id is an id that no row of the table has. *)
Lemma QueryNextID_fresh (ids : list Z) :
  existsb (Z.eqb (QueryNextID ids)) ids = false.
Proof.
  destruct (existsb (Z.eqb (QueryNextID ids)) ids) eqn:Hex; [|reflexivity].
  apply existsb_exists in Hex as [x [Hin Heq]].
  apply Z.eqb_eq in Heq. apply last_id_ge in Hin.
  unfold QueryNextID in Heq. lia.
Qed.

Lemma find_app_none {A : Type} (p : A -> bool) (l : list A) (x : A) :
  List.find p l = None -> p x = true -> List.find p (l ++ [x]) = Some x.
Proof.
  induction l as [|y l IH]; simpl; intros Hnone Hx.
  - rewrite Hx. reflexivity.
  - destruct (p y); [discriminate|]. apply IH; assumption.
Qed.

Lemma find_map_preserved {A : Type} (p : A -> bool) (f : A -> A) (l : list A) :
  (forall x, p (f x) = p x) ->
  List.find p (map f l) = option_map f (List.find p l).
Proof.
  intros Hp. induction l as [|y l IH]; simpl; [reflexivity|].
  rewrite Hp. destruct (p y); [reflexivity|exact IH].
Qed.

Lemma set_admin_where_snowflake (id : Z) (u : UserRow) :
  user_snowflake (set_admin_where id u) = user_snowflake u.
Proof. unfold set_admin_where. destruct (user_id u =? id); reflexivity. Qed.

Lemma set_admin_where_id (id : Z) (u : UserRow) :
  user_id (set_admin_where id u) = user_id u.
Proof. unfold set_admin_where. destruct (user_id u =? id); reflexivity. Qed.

Lemma set_admin_where_name (id : Z) (u : UserRow) :
  user_name (set_admin_where id u) = user_name u.
Proof. unfold set_admin_where. destruct (user_id u =? id); reflexivity. Qed.

Lemma set_admin_where_self (u : UserRow) :
  user_admin (set_admin_where (user_id u) u) = true.
Proof. unfold set_admin_where. rewrite Z.eqb_refl. reflexivity. Qed.

Lemma Contains_app_root (paths : list string) :
  Contains (paths ++ ["/"]) "/" = true.
Proof. apply Contains_true. apply in_or_app. right. left. reflexivity. Qed.

Lemma queryAccess_users_irrelevant (db : DB) (us : list UserRow) (u : UserRow) :
  queryAccess (set_users us db) u = queryAccess db u.
Proof. reflexivity. Qed.

(** The user that the flag names is found after the first step. *)
Lemma bootstrap_user_found (flagAdmin : string) (db : DB) :
  queryUserBySnowflake (set_users (bootstrap_users flagAdmin db) db) flagAdmin
  = Some (bootstrap_user flagAdmin db).
Proof.
  unfold queryUserBySnowflake, bootstrap_users, bootstrap_user, queryUserBySnowflake.
  cbn [users set_users].
  destruct (List.find _ (users db)) as [uu|] eqn:Hfind.
  - destruct (user_admin uu) eqn:Hadm; [exact Hfind|].
    rewrite find_map_preserved
      by (intros x; rewrite set_admin_where_snowflake; reflexivity).
    rewrite Hfind. reflexivity.
  - apply find_app_none; [exact Hfind|]. cbn. apply String.eqb_refl.
Qed.

Lemma bootstrap_user_admin (flagAdmin : string) (db : DB) :
  user_admin (bootstrap_user flagAdmin db) = true.
Proof.
  unfold bootstrap_user.
  destruct (queryUserBySnowflake db flagAdmin) as [uu|]; [|reflexivity].
  destruct (user_admin uu) eqn:Hadm; [exact Hadm|apply set_admin_where_self].
Qed.

(** The admin creation never has an insert rejected, and what it leaves
    is the store with the two tables above. *)
Lemma adminBootstrap_shape (flagAdmin : string) (db : DB) :
  flagAdmin <> "" ->
  adminBootstrap flagAdmin db
  = Some {| schema := schema db;
            users := bootstrap_users flagAdmin db;
            access := bootstrap_access flagAdmin db;
            shares := shares db |}.
Proof.
  intros Hflag.
  pose proof (bootstrap_user_found flagAdmin db) as Hfound.
  unfold adminBootstrap.
  destruct (String.eqb_spec flagAdmin "") as [|_]; [contradiction|]. cbn [negb].
  assert (Hstep1 :
    match queryUserBySnowflake db flagAdmin with
    | Some uu => if negb (user_admin uu)
                 then Some (QueryDoUpdate_users_admin (user_id uu) db)
                 else Some db
    | None => queryDoAddUser (QueryNextID_users db) flagAdmin true "" db
    end = Some (set_users (bootstrap_users flagAdmin db) db)).
  { unfold bootstrap_users.
    destruct (queryUserBySnowflake db flagAdmin) as [uu|].
    - destruct (user_admin uu); cbn [negb]; [|reflexivity].
      destruct db; reflexivity.
    - unfold queryDoAddUser, insert_user. cbn [user_id].
      unfold QueryNextID_users. rewrite QueryNextID_fresh. reflexivity. }
  rewrite Hstep1, Hfound. cbn [default from_option id].
  rewrite queryAccess_users_irrelevant.
  unfold bootstrap_access.
  destruct (Contains (queryAccess db (bootstrap_user flagAdmin db)) "/");
    cbn [negb].
  - reflexivity.
  - unfold insert_access. cbn [access_id root_grant].
    unfold QueryNextID_access. cbn [access set_users].
    rewrite QueryNextID_fresh. reflexivity.
Qed.

Lemma Contains_queryAccess_root (db : DB) (u : UserRow) :
  Contains (queryAccess db u) "/"
  = (0 <? length (root_grants db (user_id u)))%nat.
Proof.
  unfold Contains, queryAccess, root_grants.
  induction (access db) as [|a l IH]; cbn [List.filter map existsb length];
    [reflexivity|].
  destruct (access_user a =? user_id u); cbn [andb map existsb].
  - destruct (String.eqb "/" (access_path a)); cbn [orb length]; [reflexivity|exact IH].
  - exact IH.
Qed.

(** C5. With a non-empty [--admin] flag the admin creation completes (no
    insert is rejected) and leaves a store in which the user of that
    snowflake is found, is an admin and is granted ["/"].  A user that
    was there before keeps its row: the ids, snowflakes and names of the
    [users] table are what they were, no row is added; a user that was
    not there is added as one row with the next id.  The number of ["/"]
    grants of the user is what it was when there was one, and one
    otherwise: no second ["/"] row is inserted. *)
Theorem adminBootstrap_admin_with_root (flagAdmin : string) (db : DB) :
  flagAdmin <> "" ->
  exists (db' : DB) (u : UserRow),
    adminBootstrap flagAdmin db = Some db'
    /\ queryUserBySnowflake db' flagAdmin = Some u
    /\ user_admin u = true
    /\ Contains (queryAccess db' u) "/" = true
    /\ (forall uu, queryUserBySnowflake db flagAdmin = Some uu ->
          map user_id (users db') = map user_id (users db)
          /\ map user_snowflake (users db') = map user_snowflake (users db)
          /\ map user_name (users db') = map user_name (users db)
          /\ user_id u = user_id uu)
    /\ (queryUserBySnowflake db flagAdmin = None ->
          users db' = (users db ++ [admin_row (QueryNextID_users db) flagAdmin])%list)
    /\ (Contains (queryAccess db u) "/" = true -> access db' = access db)
    /\ length (root_grants db' (user_id u))
       = Nat.max 1 (length (root_grants db (user_id u))).
Proof.
  intros Hflag.
  exists {| schema := schema db; users := bootstrap_users flagAdmin db;
            access := bootstrap_access flagAdmin db; shares := shares db |}.
  exists (bootstrap_user flagAdmin db).
  pose proof (Contains_queryAccess_root db (bootstrap_user flagAdmin db)) as Hroot.
  repeat match goal with |- _ /\ _ => split end.
  - apply adminBootstrap_shape. exact Hflag.
  - apply bootstrap_user_found.
  - apply bootstrap_user_admin.
  - unfold queryAccess, bootstrap_access. cbn [access].
    destruct (Contains (queryAccess db (bootstrap_user flagAdmin db)) "/") eqn:Hc.
    + exact Hc.
    + rewrite List.filter_app, map_app. cbn [List.filter root_grant access_user].
      rewrite Z.eqb_refl. apply Contains_app_root.
  - intros uu Huu. unfold bootstrap_users, bootstrap_user. rewrite Huu. cbn [users].
    destruct (user_admin uu).
    + repeat split; reflexivity.
    + rewrite !map_map. repeat split.
      * apply map_ext. intros x. apply set_admin_where_id.
      * apply map_ext. intros x. apply set_admin_where_snowflake.
      * apply map_ext. intros x. apply set_admin_where_name.
      * apply set_admin_where_id.
  - intros Hnone. unfold bootstrap_users. rewrite Hnone. reflexivity.
  - intros Hc. unfold bootstrap_access. cbn [access]. rewrite Hc. reflexivity.
  - unfold root_grants at 1. unfold bootstrap_access. cbn [access].
    destruct (Contains (queryAccess db (bootstrap_user flagAdmin db)) "/") eqn:Hc.
    + fold (root_grants db (user_id (bootstrap_user flagAdmin db))).
      symmetry in Hroot. apply Nat.ltb_lt in Hroot. lia.
    + rewrite List.filter_app, length_app.
      fold (root_grants db (user_id (bootstrap_user flagAdmin db))).
      cbn [List.filter root_grant access_user access_path].
      rewrite Z.eqb_refl. cbn [andb String.eqb length].
      symmetry in Hroot. apply Nat.ltb_ge in Hroot.
      cbn. lia.
Qed.

Lemma adminBootstrap_admin_with_root_witness :
  exists (db' : DB) (u : UserRow),
    adminBootstrap "1234" sample_DB = Some db'
    /\ queryUserBySnowflake db' "1234" = Some u
    /\ user_admin u = true
    /\ Contains (queryAccess db' u) "/" = true
    /\ (forall uu, queryUserBySnowflake sample_DB "1234" = Some uu ->
          map user_id (users db') = map user_id (users sample_DB)
          /\ map user_snowflake (users db') = map user_snowflake (users sample_DB)
          /\ map user_name (users db') = map user_name (users sample_DB)
          /\ user_id u = user_id uu)
    /\ (queryUserBySnowflake sample_DB "1234" = None ->
          users db' = (users sample_DB ++ [admin_row (QueryNextID_users sample_DB) "1234"])%list)
    /\ (Contains (queryAccess sample_DB u) "/" = true -> access db' = access sample_DB)
    /\ length (root_grants db' (user_id u))
       = Nat.max 1 (length (root_grants sample_DB (user_id u))).
Proof.
  apply (adminBootstrap_admin_with_root "1234" sample_DB). discriminate.
Defined.

(** The existing user 7 becomes an admin in its row and receives the
    grant with the next id of [access]. *)
Example adminBootstrap_existing_user :
  option_map (fun db => (users db, access db)) (adminBootstrap "1234" sample_DB)
  = Some ([ {| user_id := 7; user_snowflake := "1234";
               user_admin := true; user_name := "kyle" |};
            {| user_id := 3; user_snowflake := "99";
               user_admin := true; user_name := "root" |} ],
          [ {| access_id := 1; access_user := 3; access_path := "/" |};
            {| access_id := 2; access_user := 7; access_path := "/docs" |};
            {| access_id := 3; access_user := 7; access_path := "/" |} ]).
Proof. reflexivity. Qed.

(** An admin that holds the root grant already: nothing changes. *)
Example adminBootstrap_nothing_to_do :
  adminBootstrap "99" sample_DB = Some sample_DB.
Proof. reflexivity. Qed.

(** A snowflake not seen before, on the store of a first start. *)
Example adminBootstrap_first_start :
  option_map (fun db => (users db, access db))
             (adminBootstrap "555" (createTables empty_DB))
  = Some ([admin_row 1 "555"], [root_grant 1 1]).
Proof. reflexivity. Qed.

(** ** Client-side id allocation *)

Lemma fold_max_app (l1 l2 : list Z) (i : Z) :
  fold_left Z.max (l1 ++ l2) i = fold_left Z.max l2 (fold_left Z.max l1 i).
Proof. apply fold_left_app. Qed.

Lemma last_id_snoc_next (ids : list Z) :
  last_id (ids ++ [QueryNextID ids]) = QueryNextID ids.
Proof.
  unfold QueryNextID. destruct ids as [|i rest]; [reflexivity|].
  cbn [app last_id]. rewrite fold_max_app. cbn [fold_left]. lia.
Qed.

Lemma existsb_snoc_self (ids : list Z) (x : Z) :
  existsb (Z.eqb x) (ids ++ [x]) = true.
Proof.
  rewrite existsb_app. cbn. rewrite Z.eqb_refl. apply orb_true_iff.
  right. reflexivity.
Qed.

Lemma client_query (row : new_row) (db : DB) :
  client_step {| cl_row := row; cl_pc := AtQuery |} db
  = ({| cl_row := row; cl_pc := AtInsert (next_id_for row db) |}, db).
Proof. reflexivity. Qed.

(** The id that a client read is free as long as nobody inserts: its
    insert is accepted. *)
Lemma insert_with_fresh (row : new_row) (db : DB) :
  insert_with row (next_id_for row db) db
  = Some (inserted row (next_id_for row db) db).
Proof.
  destruct row as [snowflake|user]; cbn [insert_with next_id_for inserted].
  - unfold queryDoAddUser, insert_user. cbn [user_id].
    unfold QueryNextID_users. rewrite QueryNextID_fresh. reflexivity.
  - unfold insert_access. cbn [access_id root_grant].
    unfold QueryNextID_access. rewrite QueryNextID_fresh. reflexivity.
Qed.

Lemma client_insert_fresh (row : new_row) (db : DB) :
  client_step {| cl_row := row; cl_pc := AtInsert (next_id_for row db) |} db
  = ({| cl_row := row; cl_pc := Finished (next_id_for row db) true |},
     inserted row (next_id_for row db) db).
Proof.
  unfold client_step. cbn [cl_pc cl_row]. rewrite insert_with_fresh. reflexivity.
Qed.

Lemma next_id_same_table (row1 row2 : new_row) (db : DB) :
  table_of row1 = table_of row2 -> next_id_for row2 db = next_id_for row1 db.
Proof. destruct row1, row2; (discriminate || reflexivity). Qed.

(** Once the first insert is in, the id is taken: a second insert with
    it into the same table is rejected. *)
Lemma client_insert_taken (row1 row2 : new_row) (db : DB) :
  table_of row1 = table_of row2 ->
  client_step {| cl_row := row2; cl_pc := AtInsert (next_id_for row1 db) |}
              (inserted row1 (next_id_for row1 db) db)
  = ({| cl_row := row2; cl_pc := Finished (next_id_for row1 db) false |},
     inserted row1 (next_id_for row1 db) db).
Proof.
  intros Ht. unfold client_step. cbn [cl_pc cl_row].
  destruct row1 as [s1|u1], row2 as [s2|u2]; try discriminate;
    cbn [insert_with inserted next_id_for].
  - unfold queryDoAddUser, insert_user. cbn [user_id users set_users].
    rewrite map_app. cbn [map admin_row user_id].
    rewrite existsb_snoc_self. reflexivity.
  - unfold insert_access. cbn [access_id root_grant access set_access].
    rewrite map_app. cbn [map access_id].
    rewrite existsb_snoc_self. reflexivity.
Qed.

(** After an accepted insert the next id of that table is one more. *)
Lemma next_id_after_insert (row1 row2 : new_row) (db : DB) :
  table_of row1 = table_of row2 ->
  next_id_for row2 (inserted row1 (next_id_for row1 db) db)
  = next_id_for row1 db + 1.
Proof.
  intros Ht.
  destruct row1 as [s1|u1], row2 as [s2|u2]; try discriminate;
    cbn [inserted next_id_for].
  - unfold QueryNextID_users. cbn [users set_users].
    rewrite map_app. cbn [map admin_row user_id].
    unfold QueryNextID at 1. rewrite last_id_snoc_next. reflexivity.
  - unfold QueryNextID_access. cbn [access set_access].
    rewrite map_app. cbn [map root_grant access_id].
    unfold QueryNextID at 1. rewrite last_id_snoc_next. reflexivity.
Qed.

(** C7. The admin creation computes the id of every row it inserts by
    [QueryNextID] on the table as it is before the insert: a user that
    the flag names and the table lacks is inserted with the next id of
    [users] (and no user row is inserted otherwise), and a root grant
    that the user lacks is inserted with the next id of [access] (and no
    grant otherwise).  That id depends on the table alone.  So for each
    of the two tables, two clients that both read it before either
    inserts are assigned the same id (the store then takes the first
    insert only), whereas two clients that run one after the other are
    assigned different ids. *)
Theorem QueryNextID_client_side (flagAdmin : string) (row1 row2 : new_row)
    (db : DB) :
  flagAdmin <> "" ->
  table_of row1 = table_of row2 ->
  (exists (db' : DB) (nu : UserRow),
     adminBootstrap flagAdmin db = Some db'
     /\ queryUserBySnowflake db' flagAdmin = Some nu
     /\ match queryUserBySnowflake db flagAdmin with
        | None =>
            users db'
            = (users db ++ [admin_row (QueryNextID (map user_id (users db)))
                                      flagAdmin])%list
        | Some _ => map user_id (users db') = map user_id (users db)
        end
     /\ (if Contains (queryAccess db nu) "/"
         then access db' = access db
         else access db'
              = (access db
                 ++ [root_grant (QueryNextID (map access_id (access db)))
                                (user_id nu)])%list))
  /\ (exists (db' : DB),
        run_schedule [false; true; false; true] (new_client row1) (new_client row2) db
        = ({| cl_row := row1; cl_pc := Finished (next_id_for row1 db) true |},
           {| cl_row := row2; cl_pc := Finished (next_id_for row1 db) false |},
           db'))
  /\ (exists (db' : DB),
        run_schedule [false; false; true; true] (new_client row1) (new_client row2) db
        = ({| cl_row := row1; cl_pc := Finished (next_id_for row1 db) true |},
           {| cl_row := row2; cl_pc := Finished (next_id_for row1 db + 1) true |},
           db')).
Proof.
  intros Hflag Ht. split; [|split].
  - eexists. exists (bootstrap_user flagAdmin db).
    split; [apply adminBootstrap_shape; exact Hflag|].
    split; [apply bootstrap_user_found|].
    cbn [users access]. split.
    + unfold bootstrap_users.
      destruct (queryUserBySnowflake db flagAdmin) as [uu|]; [|reflexivity].
      destruct (user_admin uu); [reflexivity|].
      rewrite map_map. apply map_ext. intros x. apply set_admin_where_id.
    + unfold bootstrap_access.
      destruct (Contains _ "/"); reflexivity.
  - eexists. unfold new_client. cbn [run_schedule].
    rewrite client_query. cbn [run_schedule].
    rewrite client_query. cbn [run_schedule].
    rewrite client_insert_fresh. cbn [run_schedule].
    rewrite (next_id_same_table row1 row2 db Ht).
    rewrite (client_insert_taken row1 row2 db Ht). reflexivity.
  - eexists. unfold new_client. cbn [run_schedule].
    rewrite client_query. cbn [run_schedule].
    rewrite client_insert_fresh. cbn [run_schedule].
    rewrite client_query. cbn [run_schedule].
    rewrite client_insert_fresh. cbn [run_schedule].
    rewrite (next_id_after_insert row1 row2 db Ht). reflexivity.
Qed.

Lemma QueryNextID_client_side_witness :
  (exists (db' : DB) (nu : UserRow),
     adminBootstrap "555" sample_DB = Some db'
     /\ queryUserBySnowflake db' "555" = Some nu
     /\ match queryUserBySnowflake sample_DB "555" with
        | None =>
            users db'
            = (users sample_DB
               ++ [admin_row (QueryNextID (map user_id (users sample_DB)))
                             "555"])%list
        | Some _ => map user_id (users db') = map user_id (users sample_DB)
        end
     /\ (if Contains (queryAccess sample_DB nu) "/"
         then access db' = access sample_DB
         else access db'
              = (access sample_DB
                 ++ [root_grant (QueryNextID (map access_id (access sample_DB)))
                                (user_id nu)])%list))
  /\ (exists (db' : DB),
        run_schedule [false; true; false; true]
                     (new_client (NewGrant 7)) (new_client (NewGrant 3)) sample_DB
        = ({| cl_row := NewGrant 7;
              cl_pc := Finished (next_id_for (NewGrant 7) sample_DB) true |},
           {| cl_row := NewGrant 3;
              cl_pc := Finished (next_id_for (NewGrant 7) sample_DB) false |},
           db'))
  /\ (exists (db' : DB),
        run_schedule [false; false; true; true]
                     (new_client (NewGrant 7)) (new_client (NewGrant 3)) sample_DB
        = ({| cl_row := NewGrant 7;
              cl_pc := Finished (next_id_for (NewGrant 7) sample_DB) true |},
           {| cl_row := NewGrant 3;
              cl_pc := Finished (next_id_for (NewGrant 7) sample_DB + 1) true |},
           db')).
Proof.
  apply (QueryNextID_client_side "555" (NewGrant 7) (NewGrant 3) sample_DB).
  - discriminate.
  - reflexivity.
Defined.

(** On the sample store two interleaved clients are assigned the same
    id, 8 in [users] and 3 in [access]; the admin creation for a new
    snowflake inserts the user with id 8 and the grant with id 3. *)
Example run_schedule_interleaved :
  (let '(c1, c2, _) :=
     run_schedule [false; true; false; true]
                  (new_client (NewUser "a")) (new_client (NewUser "b")) sample_DB in
   (cl_pc c1, cl_pc c2) = (Finished 8 true, Finished 8 false))
  /\ (let '(c1, c2, _) :=
        run_schedule [false; true; false; true]
                     (new_client (NewGrant 7)) (new_client (NewGrant 3)) sample_DB in
      (cl_pc c1, cl_pc c2) = (Finished 3 true, Finished 3 false))
  /\ option_map (fun db => (users db, access db)) (adminBootstrap "555" sample_DB)
     = Some ((users sample_DB ++ [admin_row 8 "555"])%list,
             (access sample_DB ++ [root_grant 3 8])%list).
Proof. repeat split. Qed.

(** ** Response writers *)

Lemma writeResponse_returns (Render : string -> gmap string string -> string)
    (g : globals) (r : Request) (w : ResponseWriter)
    (title message link tpl : string) :
  Multiplex_Open (files g) (wwFFS g) "/response.hbs" = Some tpl ->
  writeResponse Render g r w title message link
  = Returns (Write (Render tpl (response_context g title message link) +:+ newline)
                   (Header_Add "Content-Type" "text/html" w)).
Proof.
  intros Htpl. unfold writeResponse, writeHandlebarsFile, readServerFile.
  rewrite Htpl. reflexivity.
Qed.

Lemma writeAPIResponse_returns (Render : string -> gmap string string -> string)
    (g : globals) (r : Request) (w : ResponseWriter)
    (good : bool) (message tpl : string) :
  Multiplex_Open (files g) (wwFFS g) "/response.hbs" = Some tpl ->
  exists w', writeAPIResponse Render g r w good message = Returns w'.
Proof.
  intros Htpl. unfold writeAPIResponse.
  rewrite (writeResponse_returns _ _ _ _ _ _ _ tpl Htpl). eexists. reflexivity.
Qed.


(** The page of a denial.  When the template is there and the session
    is one that [writeUserDenied] can print (no name, or a name and a
    user that are strings), the function returns in both branches with
    the status code 403.  The page differs between the branches: its
    title is [Forbidden] with a login link when [showLogin] is set and
    [Not Found] with an empty link otherwise. *)
Theorem writeUserDenied_status_forbidden
    (Render : string -> gmap string string -> string) (g : globals)
    (r : Request) (w : ResponseWriter) (fileOrAdmin showLogin : bool)
    (tpl : string) :
  Multiplex_Open (files g) (wwFFS g) "/response.hbs" = Some tpl ->
  status w = None ->
  (Values r !! "name" = None
   \/ exists n i, Values r !! "name" = Some (VString n)
                  /\ Values r !! "user" = Some (VString i)) ->
  exists (w' : ResponseWriter) (message : string),
    writeUserDenied Render g r w fileOrAdmin showLogin = Returns w'
    /\ status w' = Some StatusForbidden
    /\ body w' =
         body w +:+
         Render tpl
           (response_context g
              (if showLogin then "Forbidden" else "Not Found")
              message
              (if showLogin
               then "Please <a href='" +:+ httpBase g +:+ "login'>Log In</a>."
               else ""))
         +:+ newline.
Proof.
  intros Htpl Hw Hsess. unfold writeUserDenied.
  assert (Hme : exists me,
    match Values r !! "name" with
    | Some _ =>
        letp name <~ assertString (Values r !! "name") in
        letp id <~ assertString (Values r !! "user") in
        Returns ("" +:+ prov_NamePrefix (oauth2Provider_idp g) +:+ name
                   +:+ " (" +:+ id +:+ ")")
    | None => Returns ""
    end = Returns me).
  { destruct Hsess as [Hnone|[n [i [Hn Hi]]]].
    - rewrite Hnone. eexists. reflexivity.
    - rewrite Hn, Hi. eexists. reflexivity. }
  destruct Hme as [me Hme]. rewrite Hme. cbn [obind].
  destruct showLogin.
  - rewrite (writeResponse_returns _ _ _ _ _ _ _ tpl Htpl).
    eexists. eexists. split; [reflexivity|].
    unfold WriteHeader. rewrite Hw. split; reflexivity.
  - rewrite (writeResponse_returns _ _ _ _ _ _ _ tpl Htpl).
    eexists. eexists. split; [reflexivity|].
    unfold WriteHeader. rewrite Hw. split; reflexivity.
Qed.

Lemma writeUserDenied_status_forbidden_witness :
  exists (w' : ResponseWriter) (message : string),
    writeUserDenied sample_Render sample_globals anonymous_Request
                    new_ResponseWriter true false = Returns w'
    /\ status w' = Some StatusForbidden
    /\ body w' =
         body new_ResponseWriter +:+
         sample_Render "{{title}}"
           (response_context sample_globals "Not Found" message "")
         +:+ newline.
Proof.
  apply (writeUserDenied_status_forbidden sample_Render sample_globals
           anonymous_Request new_ResponseWriter true false "{{title}}").
  - reflexivity.
  - reflexivity.
  - left. reflexivity.
Defined.

(** Under the sample rendering, which prints the title, the page of the
    branch with the login link is not the page of the other branch. *)
Lemma writeUserDenied_branches_differ :
  writeUserDenied sample_Render sample_globals anonymous_Request
                  new_ResponseWriter true true
  <> writeUserDenied sample_Render sample_globals anonymous_Request
                     new_ResponseWriter true false.
Proof. vm_compute. discriminate. Qed.

Example writeUserDenied_forbidden_page :
  option_map body
    (match writeUserDenied sample_Render sample_globals anonymous_Request
                           new_ResponseWriter true true with
     | Returns w => Some w
     | Panics _ => None
     end)
  = Some ("Forbidden: You do not have access to this resource. "
          +:+ "Please <a href='/login'>Log In</a>." +:+ newline).
Proof. vm_compute. reflexivity. Qed.

Example writeUserDenied_not_found_page :
  option_map body
    (match writeUserDenied sample_Render sample_globals anonymous_Request
                           new_ResponseWriter true false with
     | Returns w => Some w
     | Panics _ => None
     end)
  = Some ("Not Found: Unable to find the requested resource for you . "
          +:+ newline).
Proof. vm_compute. reflexivity. Qed.

(** ** The login gate of the API handlers *)

(** A user row is handed out only when every check has passed. *)
Lemma apiBootstrapRequireLogin_sound
    (Render : string -> gmap string string -> string) (g : globals)
    (r : Request) (w w' : ResponseWriter) (method : string)
    (requireAdmin : bool) (sess : gmap string value) (user : UserRow) :
  apiBootstrapRequireLogin Render g r w method requireAdmin
  = Returns (LoginOk sess user, w') ->
  Method r = method
  /\ (exists userID, Values r !! "user" = Some (VString userID)
                     /\ queryUserBySnowflake (database g) userID = Some user)
  /\ (requireAdmin = true -> user_admin user = true)
  /\ is_Some (ParseForm r)
  /\ sess = Values r /\ w' = w.
Proof.
  unfold apiBootstrapRequireLogin.
  destruct (String.eqb_spec (Method r) method) as [Hm|_]; cbn [negb].
  2: { destruct (writeAPIResponse _ _ _ _ _ _); cbn; discriminate. }
  destruct (Values r !! "user") as [[userID|t]|] eqn:Huser; cbn [assertString obind].
  - destruct (queryUserBySnowflake (database g) userID) as [u|] eqn:Hq.
    + destruct (requireAdmin && negb (user_admin u)) eqn:Hadm.
      * destruct (writeAPIResponse _ _ _ _ _ _); cbn; discriminate.
      * destruct (ParseForm r) as [form|] eqn:Hform.
        -- intros [= <- <- <-].
           repeat match goal with |- _ /\ _ => split end; try reflexivity.
           ++ exact Hm.
           ++ exists userID. split; [reflexivity|exact Hq].
           ++ intros ->. cbn in Hadm. destruct (user_admin u); [reflexivity|discriminate].
           ++ eexists. reflexivity.
        -- destruct (writeAPIResponse _ _ _ _ _ _); cbn; discriminate.
    + destruct (writeResponse _ _ _ _ _ _ _); cbn; discriminate.
  - discriminate.
  - destruct (writeUserDenied _ _ _ _ _ _); cbn; discriminate.
Qed.

(** When every check passes the user row is returned and nothing is
    written. *)
Lemma apiBootstrapRequireLogin_complete
    (Render : string -> gmap string string -> string) (g : globals)
    (r : Request) (w : ResponseWriter) (requireAdmin : bool)
    (userID : string) (user : UserRow) :
  Values r !! "user" = Some (VString userID) ->
  queryUserBySnowflake (database g) userID = Some user ->
  (requireAdmin = true -> user_admin user = true) ->
  is_Some (ParseForm r) ->
  apiBootstrapRequireLogin Render g r w (Method r) requireAdmin
  = Returns (LoginOk (Values r) user, w).
Proof.
  intros Huser Hq Hadm [form Hform]. unfold apiBootstrapRequireLogin.
  rewrite String.eqb_refl, Huser. cbn [negb assertString obind].
  rewrite Hq, Hform.
  destruct requireAdmin; cbn [andb]; [|reflexivity].
  rewrite Hadm by reflexivity. reflexivity.
Qed.

(** The error results, with the template in place: a wrong method, a
    session without user and without name, a user that the table does
    not have, a user that is not an admin. *)
Lemma apiBootstrapRequireLogin_errors
    (Render : string -> gmap string string -> string) (g : globals)
    (r : Request) (w : ResponseWriter) (method tpl : string) :
  Multiplex_Open (files g) (wwFFS g) "/response.hbs" = Some tpl ->
  Method r <> method
  \/ (Values r !! "user" = None /\ Values r !! "name" = None)
  \/ (exists userID, Values r !! "user" = Some (VString userID)
        /\ queryUserBySnowflake (database g) userID = None)
  \/ (exists userID user, Values r !! "user" = Some (VString userID)
        /\ queryUserBySnowflake (database g) userID = Some user
        /\ user_admin user = false) ->
  exists w', apiBootstrapRequireLogin Render g r w method true
             = Returns (LoginError, w').
Proof.
  intros Htpl Hcase. unfold apiBootstrapRequireLogin.
  destruct (String.eqb_spec (Method r) method) as [Hm|Hm]; cbn [negb].
  2: { destruct (writeAPIResponse_returns Render g r w false
                   ("This action requires using HTTP " +:+ method) tpl Htpl)
         as [w' Hw'].
       rewrite Hw'. eexists. reflexivity. }
  destruct Hcase as [Hne|[[Hu Hn]|[[userID [Hu Hq]]|[userID [user [Hu [Hq Ha]]]]]]].
  - contradiction.
  - rewrite Hu. unfold writeUserDenied. rewrite Hn. cbn [obind].
    rewrite (writeResponse_returns _ _ _ _ _ _ _ tpl Htpl).
    eexists. reflexivity.
  - rewrite Hu. cbn [assertString obind]. rewrite Hq.
    rewrite (writeResponse_returns _ _ _ _ _ _ _ tpl Htpl).
    eexists. reflexivity.
  - rewrite Hu. cbn [assertString obind]. rewrite Hq, Ha. cbn [andb negb].
    destruct (writeAPIResponse_returns Render g r w false
                ("This action requires being a site administrator. ("
                   +:+ userID +:+ ")") tpl Htpl) as [w' Hw'].
    rewrite Hw'. eexists. reflexivity.
Qed.

(** A request with the required method whose session has a name and no
    user (a session that [session_ok] excludes) does not get the error
    result: [writeUserDenied], called because the user is missing,
    asserts that very user to be a string, and the call panics. *)
Theorem apiBootstrapRequireLogin_name_without_user
    (Render : string -> gmap string string -> string) (g : globals)
    (r : Request) (w : ResponseWriter) (method : string) (requireAdmin : bool) :
  Method r = method ->
  Values r !! "user" = None ->
  is_Some (Values r !! "name") ->
  exists why : string,
    apiBootstrapRequireLogin Render g r w method requireAdmin = Panics why.
Proof.
  intros Hm Hu [name Hn]. unfold apiBootstrapRequireLogin.
  rewrite Hm, String.eqb_refl, Hu. cbn [negb].
  unfold writeUserDenied. rewrite Hn, Hu.
  destruct name as [n|t]; cbn [assertString obind]; eexists; reflexivity.
Qed.

Lemma apiBootstrapRequireLogin_name_without_user_witness :
  exists why : string,
    apiBootstrapRequireLogin sample_Render sample_globals nameonly_Request
                             new_ResponseWriter "POST" true
    = Panics why.
Proof.
  apply (apiBootstrapRequireLogin_name_without_user sample_Render sample_globals
           nameonly_Request new_ResponseWriter "POST" true).
  - reflexivity.
  - reflexivity.
  - exists (VString "kyle"). reflexivity.
Defined.

Example apiBootstrapRequireLogin_nameonly_panics :
  apiBootstrapRequireLogin sample_Render sample_globals nameonly_Request
                           new_ResponseWriter "POST" true
  = Panics "interface conversion: interface {} is nil, not string".
Proof. vm_compute. reflexivity. Qed.

(** The admin of the sample store passes the gate. *)
Example apiBootstrapRequireLogin_admin_passes :
  apiBootstrapRequireLogin sample_Render sample_globals
    {| Method := "POST";
       Values := <["user" := VString "99"]> {["name" := VString "root"]};
       ParseForm := Some ∅ |}
    new_ResponseWriter "POST" true
  = Returns (LoginOk (<["user" := VString "99"]> {["name" := VString "root"]})
               {| user_id := 3; user_snowflake := "99";
                  user_admin := true; user_name := "root" |},
             new_ResponseWriter).
Proof. vm_compute. reflexivity. Qed.

(** ** The path access model *)

Lemma strict_prefixb_spec (l1 l2 : list string) :
  strict_prefixb l1 l2 = true <->
  exists rest : list string, rest <> [] /\ l2 = (l1 ++ rest)%list.
Proof.
  revert l2. induction l1 as [|a l1 IH]; intros l2.
  - destruct l2 as [|b l2]; cbn.
    + split; [discriminate|]. intros [rest [Hne Heq]]. symmetry in Heq. contradiction.
    + split; [|reflexivity]. intros _. exists (b :: l2). split; [discriminate|reflexivity].
  - destruct l2 as [|b l2]; cbn.
    + split; [discriminate|]. intros [rest [_ Heq]]. discriminate.
    + rewrite andb_true_iff, String.eqb_eq, IH. split.
      * intros [-> [rest [Hne ->]]]. exists rest. split; [exact Hne|reflexivity].
      * intros [rest [Hne Heq]]. injection Heq as -> ->.
        split; [reflexivity|]. exists rest. split; [exact Hne|reflexivity].
Qed.

(** C1. [isPermitted] holds exactly when some grant is the target or the
    target lies below it by whole segments.  For the grants ["/a"] and
    ["/b/c"], ["/a/x"] and ["/b/c/d"] are permitted and ["/b/cx"] is not;
    the grant ["/foo"] does not permit ["/foobar"]. *)
Theorem isPermitted_segment_descendant (grants : list string) (target : string) :
  (isPermitted grants target = true <->
   exists g : string, In g grants /\ (g = target \/ descendant g target))
  /\ isPermitted ["/a"; "/b/c"] "/a/x" = true
  /\ isPermitted ["/a"; "/b/c"] "/b/cx" = false
  /\ isPermitted ["/a"; "/b/c"] "/b/c/d" = true
  /\ isPermitted ["/foo"] "/foobar" = false.
Proof.
  split; [|repeat split].
  unfold isPermitted, descendant. rewrite existsb_exists. split.
  - intros [g [Hin Hg]]. exists g. split; [exact Hin|].
    apply orb_true_iff in Hg as [Heq|Hpre].
    + left. apply String.eqb_eq. exact Heq.
    + right. apply strict_prefixb_spec. exact Hpre.
  - intros [g [Hin [Heq|Hdesc]]]; exists g; (split; [exact Hin|]);
      apply orb_true_iff.
    + left. apply String.eqb_eq. exact Heq.
    + right. apply strict_prefixb_spec. exact Hdesc.
Qed.

(** The root grant permits every path other than the root spelled with
    no segment, and the root itself. *)
Example isPermitted_root :
  isPermitted ["/"] "/any/where" = true /\ isPermitted ["/"] "/" = true.
Proof. split; reflexivity. Qed.

(** * Further properties of the code *)

(** ** List and form helpers *)

Lemma findFirstNonEmpty_app_empty (pre rest : list string) :
  Forall (fun s => s = "") pre ->
  findFirstNonEmpty (pre ++ rest) = findFirstNonEmpty rest.
Proof.
  induction 1 as [|x l Hx _ IH]; simpl; [reflexivity|].
  subst x. simpl. exact IH.
Qed.

Lemma String_length_pos (s : string) :
  s <> "" -> (0 <? Z.of_nat (String.length s)) = true.
Proof.
  destruct s as [|c s]; [contradiction|]. intros _.
  apply Z.ltb_lt. cbn [String.length]. lia.
Qed.

(** X1. [findFirstNonEmpty] returns the first of its arguments that is
    not the empty string and the empty string when there is none; the
    HTTP base, which ends its candidates with ["/"], is never empty. *)
Theorem findFirstNonEmpty_first_nonempty
    (pre post : list string) (s flagBase : string) (config : Config) :
  Forall (fun x => x = "") pre ->
  s <> "" ->
  findFirstNonEmpty (pre ++ s :: post) = s
  /\ findFirstNonEmpty pre = ""
  /\ opBase flagBase config <> "".
Proof.
  intros Hpre Hs. split; [|split].
  - rewrite findFirstNonEmpty_app_empty by assumption.
    simpl. rewrite String_length_pos by assumption. reflexivity.
  - rewrite <- (app_nil_r pre).
    rewrite findFirstNonEmpty_app_empty by assumption. reflexivity.
  - unfold opBase. simpl.
    destruct flagBase as [|c1 s1]; [|discriminate].
    destruct (HTTPBase config) as [|c2 s2]; discriminate.
Qed.

Lemma findFirstNonEmpty_first_nonempty_witness :
  findFirstNonEmpty ([""; ""] ++ "/srv" :: ["/tmp"]) = "/srv"
  /\ findFirstNonEmpty [""; ""] = ""
  /\ opBase "" sample_Config <> "".
Proof.
  apply (findFirstNonEmpty_first_nonempty [""; ""] ["/tmp"] "/srv" "" sample_Config).
  - repeat constructor.
  - discriminate.
Defined.

Lemma filter_loop_app {A : Type} (cb : A -> bool) (stack result : list A) :
  filter_loop cb stack result = (result ++ List.filter cb stack)%list.
Proof.
  revert result. induction stack as [|item rest IH]; intros result; simpl.
  - rewrite app_nil_r. reflexivity.
  - rewrite IH. destruct (cb item); [|reflexivity].
    rewrite <- app_assoc. reflexivity.
Qed.

(** X2. [filter] keeps exactly the items that the callback accepts, in
    the order of the input: an item is in the result when it is in the
    input and accepted, and the result is the input without the
    rejected items. *)
Theorem filter_stack_keeps_accepted {A : Type} (stack : list A) (cb : A -> bool)
    (x : A) :
  (In x (filter_stack stack cb) <-> In x stack /\ cb x = true)
  /\ filter_stack stack cb = List.filter cb stack
  /\ (length (filter_stack stack cb) <= length stack)%nat.
Proof.
  unfold filter_stack. rewrite filter_loop_app. cbn [app].
  split; [apply filter_In|]. split; [reflexivity|apply filter_length_le].
Qed.

(** X3. [containsAll] answers true exactly when every key is a key of the
    map, whatever the values under it (also an empty list of values). *)
Theorem containsAll_all_present (mp : gmap string (list string))
    (keys : list string) :
  containsAll mp keys = true <-> (forall k, In k keys -> is_Some (mp !! k)).
Proof.
  induction keys as [|item rest IH]; simpl.
  - split; [intros _ k []|reflexivity].
  - destruct (mp !! item) as [vs|] eqn:Hitem.
    + rewrite IH. split.
      * intros Hrest k [<-|Hin]; [rewrite Hitem; eexists; reflexivity|].
        apply Hrest. exact Hin.
      * intros Hall k Hin. apply Hall. right. exact Hin.
    + split; [discriminate|]. intros Hall.
      destruct (Hall item (or_introl eq_refl)) as [vs Hvs]. congruence.
Qed.

Example containsAll_empty_value :
  containsAll (<["id" := []]> (<["path" := ["/docs"]]> ∅)) ["id"; "path"] = true
  /\ containsAll (<["id" := ["1"]]> ∅) ["id"; "path"] = false
  /\ containsAll ∅ [] = true.
Proof. repeat split. Qed.

(** ** Middleware *)

Lemma chainLoop_take (mw : list Middleware) (n : nat) (last : HandlerFunc) :
  (n <= length mw)%nat ->
  chainLoop mw n last = fold_right (fun m h => m h) last (take n mw).
Proof.
  revert last. induction n as [|i IH]; intros last Hn; cbn [chainLoop].
  - reflexivity.
  - destruct (mw !! i) as [m|] eqn:Hm.
    + rewrite IH by lia.
      rewrite (take_S_r mw i m Hm), fold_right_app. reflexivity.
    + apply lookup_ge_None in Hm. exfalso.
      exact (Nat.lt_irrefl _ (Nat.lt_le_trans _ _ _ Hn Hm)).
Qed.

(** X4. [chainMiddleware] wraps the final handler in the middlewares from
    the last to the first, so that the first one listed runs outermost;
    chaining a list that is two lists one after the other is chaining
    the first around the chain of the second, and the empty chain is the
    final handler itself. *)
Theorem chainMiddleware_order (mw1 mw2 : list Middleware) (final : HandlerFunc)
    (w : ResponseWriter) (r : Request) :
  chainMiddleware mw1 final w r = fold_right (fun m h => m h) final mw1 w r
  /\ chainMiddleware (mw1 ++ mw2) final w r
     = chainMiddleware mw1 (chainMiddleware mw2 final) w r
  /\ chainMiddleware [] final w r = final w r.
Proof.
  assert (Hfold : forall mw f, chainLoop mw (length mw) f
                               = fold_right (fun m h => m h) f mw).
  { intros mw f. rewrite chainLoop_take by lia. rewrite firstn_all. reflexivity. }
  unfold chainMiddleware. split; [|split].
  - rewrite Hfold. reflexivity.
  - rewrite !Hfold, fold_right_app.
    replace (fun w0 r0 => chainLoop mw2 (length mw2) final w0 r0)
      with (fold_right (fun m h => m h) final mw2); [reflexivity|].
    rewrite <- Hfold. reflexivity.
  - reflexivity.
Qed.

(** ** Size printer, from the unit upwards *)

Lemma quot_between (b div : Z) :
  0 < div -> 0 <= b -> 1 <= Z.quot b div < 1024 -> div <= b < 1024 * div.
Proof.
  intros Hdiv Hb Hq. rewrite Z.quot_div_nonneg in Hq by lia.
  pose proof (Z.div_mod b div ltac:(lia)) as Hdm.
  pose proof (Z.mod_pos_bound b div Hdiv) as Hmod.
  nia.
Qed.

(** The loop keeps [div = 1024 ^ (exp + 1)] and [n = b / div], and no
    product leaves the range of [int64]. *)
Lemma reduceLoop_invariant (fuel : nat) (b n div d : Z) (exp e : nat) :
  0 <= b <= int64_max ->
  div = 1024 ^ (Z.of_nat exp + 1) ->
  n = Z.quot b div ->
  1 <= n ->
  reduceLoop fuel 1024 n div exp = Some (d, e) ->
  d = 1024 ^ (Z.of_nat e + 1) /\ d <= b < 1024 * d.
Proof.
  revert n div exp.
  induction fuel as [|fuel IH]; intros n div exp Hb Hdiv Hn Hn1; simpl reduceLoop.
  - destruct (Z.geb_spec n 1024) as [Hge|Hlt]; [discriminate|].
    intros [= <- <-]. split; [exact Hdiv|].
    apply quot_between; [subst div; apply Z.pow_pos_nonneg; lia|lia|lia].
  - assert (Hdivpos : 0 < div) by (subst div; apply Z.pow_pos_nonneg; lia).
    destruct (Z.geb_spec n 1024) as [Hge|Hlt].
    + assert (Hbig : 1024 * div <= b).
      { rewrite Hn in Hge. rewrite Z.quot_div_nonneg in Hge by lia.
        pose proof (Z.div_mod b div ltac:(lia)) as Hdm.
        pose proof (Z.mod_pos_bound b div Hdivpos) as Hmod. nia. }
      assert (Hnle : n <= b).
      { rewrite Hn. rewrite Z.quot_div_nonneg by lia.
        apply Z.div_le_upper_bound; [lia|nia]. }
      assert (Hint : is_int64 n)
        by (unfold is_int64, int64_min, int64_max in *; lia).
      destruct (quot_1024_int64 n Hge Hint) as [Hq _].
      rewrite (wrap64_id _ Hq).
      rewrite (wrap64_id (div * 1024))
        by (unfold is_int64, int64_min, int64_max in *; lia).
      apply IH.
      * exact Hb.
      * rewrite Nat2Z.inj_succ, Hdiv.
        replace (Z.succ (Z.of_nat exp) + 1) with (Z.succ (Z.of_nat exp + 1)) by lia.
        rewrite Z.pow_succ_r by lia. lia.
      * rewrite Hn. apply Z.quot_quot; lia.
      * rewrite Z.quot_div_nonneg by lia.
        apply Z.div_le_lower_bound; lia.
    + intros [= <- <-]. split; [exact Hdiv|]. apply quot_between; lia.
Qed.

(** X5. From 1024 up to the largest [int64], [byteCountIEC] returns (it
    neither loops on nor panics) the quotient by a power [1024 ^ (e + 1)]
    followed by the prefix letter number [e] of [KMGTPEZY] and [iB],
    where the power is the largest that does not exceed the input; [e]
    is at most 5, so the letters [Z] and [Y] are never printed. *)
Theorem byteCountIEC_prefix (fmt_f1 : Z -> Z -> string) (b : Z) :
  1024 <= b <= int64_max ->
  exists (e : nat) (c : ascii),
    (e <= 5)%nat
    /\ String.get e "KMGTPE" = Some c
    /\ 1024 ^ (Z.of_nat e + 1) <= b < 1024 ^ (Z.of_nat e + 2)
    /\ byteCountIEC fmt_f1 b
       = Some (Returns (fmt_f1 b (1024 ^ (Z.of_nat e + 1))
                          +:+ " " +:+ String c "iB")).
Proof.
  intros Hb.
  assert (Hint : is_int64 b)
    by (unfold is_int64, int64_min, int64_max in *; lia).
  pose proof (byteCountIEC_total fmt_f1 b Hint) as Htotal.
  unfold byteCountIEC, reduceNumber in *.
  destruct (Z.ltb_spec b 1024) as [Hlt|_]; [lia|].
  cbn [Z.eqb] in *.
  destruct (quot_1024_int64 b ltac:(lia) Hint) as [Hq _].
  rewrite (wrap64_id _ Hq) in *.
  destruct (reduceLoop iec_fuel 1024 (Z.quot b 1024) 1024 0) as [[d e]|] eqn:Hloop;
    [|contradiction].
  apply (reduceLoop_invariant iec_fuel b) in Hloop as [Hd Hbound].
  2: lia. 2: reflexivity. 2: reflexivity.
  2: { rewrite Z.quot_div_nonneg by lia. apply Z.div_le_lower_bound; lia. }
  assert (He : (e <= 5)%nat).
  { destruct (Nat.le_gt_cases e 5) as [Hle|Hgt]; [exact Hle|exfalso].
    assert (1024 ^ 7 <= 1024 ^ (Z.of_nat e + 1))
      by (apply Z.pow_le_mono_r; lia).
    unfold int64_max in Hb.
    change (1024 ^ 7) with 1180591620717411303424 in *.
    change (2 ^ 63) with 9223372036854775808 in *. lia. }
  assert (Hnext : 1024 * d = 1024 ^ (Z.of_nat e + 2)).
  { rewrite Hd. replace (Z.of_nat e + 2) with (Z.succ (Z.of_nat e + 1)) by lia.
    rewrite Z.pow_succ_r by lia. reflexivity. }
  exists e.
  do 6 (destruct e as [|e];
        [eexists; split; [lia|]; split; [reflexivity|];
         split; [rewrite <- Hnext, <- Hd; exact Hbound|];
         rewrite Hd; reflexivity|]).
  lia.
Qed.

Lemma byteCountIEC_prefix_witness :
  exists (e : nat) (c : ascii),
    (e <= 5)%nat
    /\ String.get e "KMGTPE" = Some c
    /\ 1024 ^ (Z.of_nat e + 1) <= 5000000 < 1024 ^ (Z.of_nat e + 2)
    /\ byteCountIEC (fun _ _ => "4.8") 5000000
       = Some (Returns ((fun _ _ => "4.8") 5000000 (1024 ^ (Z.of_nat e + 1))
                          +:+ " " +:+ String c "iB")).
Proof.
  apply (byteCountIEC_prefix (fun _ _ => "4.8") 5000000).
  unfold int64_max. change (2 ^ 63) with 9223372036854775808. lia.
Defined.

Example byteCountIEC_5000000 :
  byteCountIEC (fun _ _ => "4.8") 5000000 = Some (Returns "4.8 MiB")
  /\ byteCountIEC (fun _ _ => "8.0") (2 ^ 63 - 1) = Some (Returns "8.0 EiB").
Proof. split; reflexivity. Qed.

(** ** Response writers, further *)

(** X6. [writeAPIResponse] on a writer whose header is not yet written:
    with the template in reach it returns, the status code is 200 for
    [good] and 403 otherwise, and the page has the title
    [Update Successful] or [Update Failed] and the link back to the
    dashboard below the HTTP base; without the template it panics. *)
Theorem writeAPIResponse_status
    (Render : string -> gmap string string -> string) (g : globals)
    (r : Request) (w : ResponseWriter) (good : bool) (message : string) :
  status w = None ->
  match Multiplex_Open (files g) (wwFFS g) "/response.hbs" with
  | Some tpl =>
      exists w',
        writeAPIResponse Render g r w good message = Returns w'
        /\ status w' = Some (if good then StatusOK else StatusForbidden)
        /\ body w' =
             body w +:+
             Render tpl
               (response_context g
                  (if good then "Update Successful" else "Update Failed")
                  message
                  ("Return to <a href='" +:+ httpBase g
                     +:+ "admin'>the dashboard</a>."))
             +:+ newline
  | None =>
      exists why, writeAPIResponse Render g r w good message = Panics why
  end.
Proof.
  intros Hw.
  destruct (Multiplex_Open (files g) (wwFFS g) "/response.hbs") as [tpl|] eqn:Htpl.
  - unfold writeAPIResponse.
    rewrite (writeResponse_returns _ _ _ _ _ _ _ tpl Htpl).
    eexists. split; [reflexivity|].
    destruct good; cbn [negb]; unfold WriteHeader;
      cbn [status body header Write Header_Add]; rewrite !Hw; split; reflexivity.
  - unfold writeAPIResponse, writeResponse, writeHandlebarsFile, readServerFile.
    rewrite Htpl. eexists. reflexivity.
Qed.

Lemma writeAPIResponse_status_witness :
  match Multiplex_Open (files sample_globals) (wwFFS sample_globals)
                       "/response.hbs" with
  | Some tpl =>
      exists w',
        writeAPIResponse sample_Render sample_globals anonymous_Request
                         new_ResponseWriter false "No such grant" = Returns w'
        /\ status w' = Some (if false then StatusOK else StatusForbidden)
        /\ body w' =
             body new_ResponseWriter +:+
             sample_Render tpl
               (response_context sample_globals
                  (if false then "Update Successful" else "Update Failed")
                  "No such grant"
                  ("Return to <a href='" +:+ httpBase sample_globals
                     +:+ "admin'>the dashboard</a>."))
             +:+ newline
  | None =>
      exists why,
        writeAPIResponse sample_Render sample_globals anonymous_Request
                         new_ResponseWriter false "No such grant" = Panics why
  end.
Proof.
  apply (writeAPIResponse_status sample_Render sample_globals anonymous_Request
           new_ResponseWriter false "No such grant").
  reflexivity.
Defined.

(** X7. With the template in reach, [writeUserDenied] returns exactly for
    the sessions it can print: those without a name, and those whose
    name and user are both strings.  For every other session (a name
    without user, a name or a user of another type) it panics. *)
Theorem writeUserDenied_returns_iff
    (Render : string -> gmap string string -> string) (g : globals)
    (r : Request) (w : ResponseWriter) (fileOrAdmin showLogin : bool)
    (tpl : string) :
  Multiplex_Open (files g) (wwFFS g) "/response.hbs" = Some tpl ->
  (exists w', writeUserDenied Render g r w fileOrAdmin showLogin = Returns w')
  <-> (Values r !! "name" = None
       \/ exists n i, Values r !! "name" = Some (VString n)
                      /\ Values r !! "user" = Some (VString i)).
Proof.
  intros Htpl. unfold writeUserDenied.
  destruct (Values r !! "name") as [[n|t]|] eqn:Hname; cbn [assertString obind].
  - destruct (Values r !! "user") as [[i|t]|] eqn:Huser; cbn [assertString obind].
    + split.
      * intros _. right. exists n, i. split; reflexivity.
      * intros _. destruct showLogin;
          rewrite (writeResponse_returns _ _ _ _ _ _ _ tpl Htpl);
          eexists; reflexivity.
    + split; [intros [w' Hw']; discriminate|].
      intros [Hnone|[n' [i' [_ Hi']]]]; discriminate.
    + split; [intros [w' Hw']; discriminate|].
      intros [Hnone|[n' [i' [_ Hi']]]]; discriminate.
  - split; [intros [w' Hw']; discriminate|].
    intros [Hnone|[n' [i' [Hn' _]]]]; discriminate.
  - split.
    + intros _. left. reflexivity.
    + intros _. destruct showLogin;
        rewrite (writeResponse_returns _ _ _ _ _ _ _ tpl Htpl);
        eexists; reflexivity.
Qed.

Lemma writeUserDenied_returns_iff_witness :
  (exists w', writeUserDenied sample_Render sample_globals nameonly_Request
                              new_ResponseWriter true false = Returns w')
  <-> (Values nameonly_Request !! "name" = None
       \/ exists n i, Values nameonly_Request !! "name" = Some (VString n)
                      /\ Values nameonly_Request !! "user" = Some (VString i)).
Proof.
  apply (writeUserDenied_returns_iff sample_Render sample_globals nameonly_Request
           new_ResponseWriter true false "{{title}}").
  reflexivity.
Defined.

(** X8. The route middleware of [main], [chainMiddleware(mwAddAttribution)],
    around a handler that writes a response page: the page goes out as
    without the middleware (same status code, same body) and the header
    carries [Server: nektro/andesite], added before the handler ran. *)
Theorem mwAddAttribution_adds_server
    (Render : string -> gmap string string -> string) (g : globals)
    (r : Request) (w : ResponseWriter) (title message link tpl : string) :
  Multiplex_Open (files g) (wwFFS g) "/response.hbs" = Some tpl ->
  exists w0 w',
    writeResponse Render g r w title message link = Returns w0
    /\ chainMiddleware [mwAddAttribution]
         (fun w r => writeResponse Render g r w title message link) w r
       = Returns w'
    /\ status w' = status w0
    /\ body w' = body w0
    /\ header w' = (header w ++ [("Server", "nektro/andesite");
                                 ("Content-Type", "text/html")])%list.
Proof.
  intros Htpl. eexists. eexists. split; [|split].
  - apply (writeResponse_returns _ _ _ _ _ _ _ tpl Htpl).
  - unfold chainMiddleware, mwAddAttribution. cbn [length chainLoop lookup].
    cbn. apply (writeResponse_returns _ _ _ _ _ _ _ tpl Htpl).
  - cbn [status body header Write Header_Add].
    rewrite <- app_assoc. repeat split.
Qed.

Lemma mwAddAttribution_adds_server_witness :
  exists w0 w',
    writeResponse sample_Render sample_globals anonymous_Request
                  new_ResponseWriter "T" "M" "L" = Returns w0
    /\ chainMiddleware [mwAddAttribution]
         (fun w r => writeResponse sample_Render sample_globals r w "T" "M" "L")
         new_ResponseWriter anonymous_Request
       = Returns w'
    /\ status w' = status w0
    /\ body w' = body w0
    /\ header w' = (header new_ResponseWriter
                    ++ [("Server", "nektro/andesite");
                        ("Content-Type", "text/html")])%list.
Proof.
  apply (mwAddAttribution_adds_server sample_Render sample_globals
           anonymous_Request new_ResponseWriter "T" "M" "L" "{{title}}").
  reflexivity.
Defined.

(** ** The login gate, further *)

(** X9. [apiBootstrapRequireLogin] hands out a session and a user row in
    exactly one situation: the method is the required one, the session
    names as its user a string under which the [users] table has that
    row, the row is an admin when [requireAdmin] is set, and the form
    parses.  The session handed out is the one of the request and
    nothing has been written to the response. *)
Theorem apiBootstrapRequireLogin_ok_iff
    (Render : string -> gmap string string -> string) (g : globals)
    (r : Request) (w w' : ResponseWriter) (method : string)
    (requireAdmin : bool) (sess : gmap string value) (user : UserRow) :
  apiBootstrapRequireLogin Render g r w method requireAdmin
  = Returns (LoginOk sess user, w')
  <-> (Method r = method
       /\ (exists userID, Values r !! "user" = Some (VString userID)
                          /\ queryUserBySnowflake (database g) userID = Some user)
       /\ (requireAdmin = true -> user_admin user = true)
       /\ is_Some (ParseForm r)
       /\ sess = Values r /\ w' = w).
Proof.
  split.
  - apply apiBootstrapRequireLogin_sound.
  - intros [<- [[userID [Huser Hq]] [Hadm [Hform [-> ->]]]]].
    apply (apiBootstrapRequireLogin_complete _ _ _ _ _ userID); assumption.
Qed.

(** X10. A logged-in visitor whom the [users] table does not have gets
    the error result with the page [Access Denied], and that page goes
    out with the status code 200: this branch writes no header before
    the body. *)
Theorem apiBootstrapRequireLogin_stranger_status_ok
    (Render : string -> gmap string string -> string) (g : globals)
    (r : Request) (w : ResponseWriter) (requireAdmin : bool)
    (userID tpl : string) :
  Multiplex_Open (files g) (wwFFS g) "/response.hbs" = Some tpl ->
  status w = None ->
  Values r !! "user" = Some (VString userID) ->
  queryUserBySnowflake (database g) userID = None ->
  exists w',
    apiBootstrapRequireLogin Render g r w (Method r) requireAdmin
    = Returns (LoginError, w')
    /\ status w' = Some StatusOK
    /\ body w' =
         body w +:+
         Render tpl
           (response_context g "Access Denied"
              ("This action requires being a member of this server. ("
                 +:+ userID +:+ ")") "")
         +:+ newline.
Proof.
  intros Htpl Hw Huser Hq. unfold apiBootstrapRequireLogin.
  rewrite String.eqb_refl, Huser. cbn [negb assertString obind]. rewrite Hq.
  rewrite (writeResponse_returns _ _ _ _ _ _ _ tpl Htpl). cbn [obind].
  eexists. split; [reflexivity|].
  cbn [status body header Write Header_Add]. rewrite Hw. split; reflexivity.
Qed.

Lemma apiBootstrapRequireLogin_stranger_status_ok_witness :
  exists w',
    apiBootstrapRequireLogin sample_Render sample_globals stranger_Request
                             new_ResponseWriter (Method stranger_Request) true
    = Returns (LoginError, w')
    /\ status w' = Some StatusOK
    /\ body w' =
         body new_ResponseWriter +:+
         sample_Render "{{title}}"
           (response_context sample_globals "Access Denied"
              ("This action requires being a member of this server. ("
                 +:+ "31337" +:+ ")") "")
         +:+ newline.
Proof.
  apply (apiBootstrapRequireLogin_stranger_status_ok sample_Render sample_globals
           stranger_Request new_ResponseWriter true "31337" "{{title}}");
    reflexivity.
Defined.

(** X11. The other refusals go out with the status code 403: a request
    with another method than the required one, a member who is not an
    admin where an admin is required, and a form that does not parse. *)
Theorem apiBootstrapRequireLogin_refusals_forbidden
    (Render : string -> gmap string string -> string) (g : globals)
    (r : Request) (w : ResponseWriter) (method tpl : string)
    (requireAdmin : bool) :
  Multiplex_Open (files g) (wwFFS g) "/response.hbs" = Some tpl ->
  status w = None ->
  Method r <> method
  \/ (Method r = method
      /\ exists userID user,
           Values r !! "user" = Some (VString userID)
           /\ queryUserBySnowflake (database g) userID = Some user
           /\ ((requireAdmin = true /\ user_admin user = false)
               \/ ParseForm r = None)) ->
  exists w',
    apiBootstrapRequireLogin Render g r w method requireAdmin
    = Returns (LoginError, w')
    /\ status w' = Some StatusForbidden.
Proof.
  intros Htpl Hw Hcase. unfold apiBootstrapRequireLogin, writeAPIResponse.
  destruct Hcase as [Hm|[Hm [userID [user [Huser [Hq Hwhy]]]]]].
  - destruct (String.eqb_spec (Method r) method) as [|_]; [contradiction|].
    cbn [negb]. rewrite (writeResponse_returns _ _ _ _ _ _ _ tpl Htpl).
    eexists. split; [reflexivity|].
    unfold WriteHeader. cbn [status body header Write Header_Add].
    rewrite !Hw. reflexivity.
  - rewrite Hm, String.eqb_refl, Huser. cbn [negb assertString obind].
    rewrite Hq.
    destruct (requireAdmin && negb (user_admin user)) eqn:Hadm.
    + cbn [negb]. rewrite (writeResponse_returns _ _ _ _ _ _ _ tpl Htpl).
      eexists. split; [reflexivity|].
      unfold WriteHeader. cbn [status body header Write Header_Add].
      rewrite !Hw. reflexivity.
    + destruct Hwhy as [[-> Ha]|Hform].
      * rewrite Ha in Hadm. discriminate.
      * rewrite Hform. cbn [negb].
        rewrite (writeResponse_returns _ _ _ _ _ _ _ tpl Htpl).
        eexists. split; [reflexivity|].
        unfold WriteHeader. cbn [status body header Write Header_Add].
        rewrite !Hw. reflexivity.
Qed.

Lemma apiBootstrapRequireLogin_refusals_forbidden_witness :
  exists w',
    apiBootstrapRequireLogin sample_Render sample_globals member_Request
                             new_ResponseWriter "POST" true
    = Returns (LoginError, w')
    /\ status w' = Some StatusForbidden.
Proof.
  apply (apiBootstrapRequireLogin_refusals_forbidden sample_Render sample_globals
           member_Request new_ResponseWriter "POST" "{{title}}" true).
  - reflexivity.
  - reflexivity.
  - right. split; [reflexivity|].
    exists "1234", {| user_id := 7; user_snowflake := "1234";
                      user_admin := false; user_name := "kyle" |}.
    split; [reflexivity|]. split; [reflexivity|].
    left. split; reflexivity.
Defined.

(** X12. With the template in reach the gate panics in exactly two
    situations, both behind a matching method: the session has a name but
    no user, or its user is not a string.  In every other situation it
    returns. *)
Theorem apiBootstrapRequireLogin_panics_iff
    (Render : string -> gmap string string -> string) (g : globals)
    (r : Request) (w : ResponseWriter) (method tpl : string)
    (requireAdmin : bool) :
  Multiplex_Open (files g) (wwFFS g) "/response.hbs" = Some tpl ->
  (exists why,
     apiBootstrapRequireLogin Render g r w method requireAdmin = Panics why)
  <-> (Method r = method
       /\ ((Values r !! "user" = None /\ is_Some (Values r !! "name"))
           \/ exists t, Values r !! "user" = Some (VOther t))).
Proof.
  intros Htpl. unfold apiBootstrapRequireLogin, writeAPIResponse.
  destruct (String.eqb_spec (Method r) method) as [Hm|Hm]; cbn [negb].
  2: { rewrite (writeResponse_returns _ _ _ _ _ _ _ tpl Htpl). cbn [obind].
       split; [intros [why Hwhy]; discriminate|]. intros [Hm' _]. contradiction. }
  destruct (Values r !! "user") as [[userID|t]|] eqn:Huser;
    cbn [assertString obind].
  - split.
    + intros [why Hwhy]. exfalso.
      destruct (queryUserBySnowflake (database g) userID) as [user|].
      * destruct (requireAdmin && negb (user_admin user)).
        -- cbn [negb] in Hwhy.
           rewrite (writeResponse_returns _ _ _ _ _ _ _ tpl Htpl) in Hwhy.
           discriminate.
        -- destruct (ParseForm r); [discriminate|]. cbn [negb] in Hwhy.
           rewrite (writeResponse_returns _ _ _ _ _ _ _ tpl Htpl) in Hwhy.
           discriminate.
      * rewrite (writeResponse_returns _ _ _ _ _ _ _ tpl Htpl) in Hwhy.
        discriminate.
    + intros [_ [[Hnone _]|[t Ht]]]; discriminate.
  - split.
    + intros _. split; [exact Hm|]. right. exists t. reflexivity.
    + intros _. eexists. reflexivity.
  - unfold writeUserDenied.
    destruct (Values r !! "name") as [[n|t]|] eqn:Hname;
      cbn [assertString obind]; rewrite ?Huser; cbn [assertString obind].
    + split.
      * intros _. split; [exact Hm|]. left. split; [reflexivity|eexists; reflexivity].
      * intros _. eexists. reflexivity.
    + split.
      * intros _. split; [exact Hm|]. left. split; [reflexivity|eexists; reflexivity].
      * intros _. eexists. reflexivity.
    + rewrite (writeResponse_returns _ _ _ _ _ _ _ tpl Htpl). cbn [obind].
      split; [intros [why Hwhy]; discriminate|].
      intros [_ [[_ [v Hv]]|[t Ht]]]; discriminate.
Qed.

Lemma apiBootstrapRequireLogin_panics_iff_witness :
  (exists why,
     apiBootstrapRequireLogin sample_Render sample_globals member_Request
                              new_ResponseWriter "POST" true = Panics why)
  <-> (Method member_Request = "POST"
       /\ ((Values member_Request !! "user" = None
            /\ is_Some (Values member_Request !! "name"))
           \/ exists t, Values member_Request !! "user" = Some (VOther t))).
Proof.
  apply (apiBootstrapRequireLogin_panics_iff sample_Render sample_globals
           member_Request new_ResponseWriter "POST" "{{title}}" true).
  reflexivity.
Defined.

(** ** Admin bootstrap, further *)

Lemma bootstrap_access_has_root (flagAdmin : string) (db : DB) :
  Contains
    (map access_path
         (List.filter
            (fun a => access_user a =? user_id (bootstrap_user flagAdmin db))
            (bootstrap_access flagAdmin db))) "/" = true.
Proof.
  unfold bootstrap_access.
  destruct (Contains (queryAccess db (bootstrap_user flagAdmin db)) "/") eqn:Hc.
  - exact Hc.
  - rewrite List.filter_app, map_app. cbn [List.filter root_grant access_user].
    rewrite Z.eqb_refl. apply Contains_app_root.
Qed.

Lemma adminBootstrap_empty_flag (db : DB) : adminBootstrap "" db = Some db.
Proof. reflexivity. Qed.

(** X13. The admin creation is idempotent: run on the store that a first
    run left, with the same flag, it completes and changes nothing (no
    second user row, no second grant). *)
Theorem adminBootstrap_idempotent (flagAdmin : string) (db db' : DB) :
  adminBootstrap flagAdmin db = Some db' ->
  adminBootstrap flagAdmin db' = Some db'.
Proof.
  destruct (String.eqb_spec flagAdmin "") as [->|Hflag].
  { rewrite !adminBootstrap_empty_flag. intros [= <-]. reflexivity. }
  rewrite (adminBootstrap_shape flagAdmin db Hflag). intros [= <-].
  rewrite (adminBootstrap_shape flagAdmin _ Hflag). cbn [schema shares].
  pose proof (bootstrap_user_found flagAdmin db) as Hfound.
  pose proof (bootstrap_user_admin flagAdmin db) as Hadmin.
  pose proof (bootstrap_access_has_root flagAdmin db) as Hroot.
  set (db1 := {| schema := schema db; users := bootstrap_users flagAdmin db;
                 access := bootstrap_access flagAdmin db; shares := shares db |}).
  assert (Hq : queryUserBySnowflake db1 flagAdmin
               = Some (bootstrap_user flagAdmin db)) by exact Hfound.
  assert (Hu : bootstrap_user flagAdmin db1 = bootstrap_user flagAdmin db).
  { unfold bootstrap_user at 1. rewrite Hq, Hadmin. reflexivity. }
  assert (Hus : bootstrap_users flagAdmin db1 = bootstrap_users flagAdmin db).
  { unfold bootstrap_users at 1. rewrite Hq, Hadmin. reflexivity. }
  assert (Hac : bootstrap_access flagAdmin db1 = bootstrap_access flagAdmin db).
  { unfold bootstrap_access at 1. rewrite Hu.
    unfold queryAccess. cbn [access db1]. rewrite Hroot. reflexivity. }
  rewrite Hus, Hac. reflexivity.
Qed.

Lemma adminBootstrap_idempotent_witness :
  adminBootstrap "1234"
    {| schema := schema sample_DB;
       users := bootstrap_users "1234" sample_DB;
       access := bootstrap_access "1234" sample_DB;
       shares := shares sample_DB |}
  = Some {| schema := schema sample_DB;
            users := bootstrap_users "1234" sample_DB;
            access := bootstrap_access "1234" sample_DB;
            shares := shares sample_DB |}.
Proof.
  apply (adminBootstrap_idempotent "1234" sample_DB). reflexivity.
Defined.

Lemma NoDup_snoc_fresh (ids : list Z) :
  NoDup ids -> NoDup (ids ++ [QueryNextID ids]).
Proof.
  intros Hnd. apply NoDup_app. split; [exact Hnd|].
  split; [|apply NoDup_singleton].
  intros y Hy Hin. apply list_elem_of_singleton in Hin. subst y.
  apply list_elem_of_In, last_id_ge in Hy. unfold QueryNextID in Hy. lia.
Qed.

(** X14. The admin creation keeps the primary keys: when no two rows of
    [users] and no two rows of [access] share an id before, none do
    after. *)
Theorem adminBootstrap_keeps_ids_unique (flagAdmin : string) (db db' : DB) :
  NoDup (map user_id (users db)) ->
  NoDup (map access_id (access db)) ->
  adminBootstrap flagAdmin db = Some db' ->
  NoDup (map user_id (users db')) /\ NoDup (map access_id (access db')).
Proof.
  intros Hus Hac.
  destruct (String.eqb_spec flagAdmin "") as [->|Hflag].
  { rewrite adminBootstrap_empty_flag. intros [= <-]. split; assumption. }
  rewrite (adminBootstrap_shape flagAdmin db Hflag). intros [= <-].
  cbn [users access]. split.
  - unfold bootstrap_users.
    destruct (queryUserBySnowflake db flagAdmin) as [uu|].
    + destruct (user_admin uu); [exact Hus|].
      rewrite map_map.
      rewrite (map_ext _ user_id (fun x => set_admin_where_id (user_id uu) x)).
      exact Hus.
    + rewrite map_app. cbn [map admin_row user_id].
      apply NoDup_snoc_fresh. exact Hus.
  - unfold bootstrap_access.
    destruct (Contains _ "/"); [exact Hac|].
    rewrite map_app. cbn [map root_grant access_id].
    apply NoDup_snoc_fresh. exact Hac.
Qed.

Lemma adminBootstrap_keeps_ids_unique_witness :
  NoDup (map user_id (users {| schema := schema sample_DB;
            users := bootstrap_users "555" sample_DB;
            access := bootstrap_access "555" sample_DB;
            shares := shares sample_DB |}))
  /\ NoDup (map access_id (access {| schema := schema sample_DB;
            users := bootstrap_users "555" sample_DB;
            access := bootstrap_access "555" sample_DB;
            shares := shares sample_DB |})).
Proof.
  apply (adminBootstrap_keeps_ids_unique "555" sample_DB).
  - apply (bool_decide_unpack _). vm_compute. exact I.
  - apply (bool_decide_unpack _). vm_compute. exact I.
  - reflexivity.
Defined.

Lemma set_admin_where_of_admin (id : Z) (u : UserRow) :
  user_admin u = true -> set_admin_where id u = u.
Proof.
  intros Ha. unfold set_admin_where.
  destruct (user_id u =? id); [|reflexivity].
  destruct u as [i s a n]. cbn in *. subst a. reflexivity.
Qed.

(** X15. The admin creation takes nothing away: every grant of [access]
    is still there afterwards, every admin row of [users] is still
    there, unchanged, and the [users] table has not shrunk. *)
Theorem adminBootstrap_takes_nothing_away (flagAdmin : string) (db db' : DB) :
  adminBootstrap flagAdmin db = Some db' ->
  (forall a, In a (access db) -> In a (access db'))
  /\ (forall u, In u (users db) -> user_admin u = true -> In u (users db'))
  /\ (length (users db) <= length (users db'))%nat.
Proof.
  destruct (String.eqb_spec flagAdmin "") as [->|Hflag].
  { rewrite adminBootstrap_empty_flag. intros [= <-].
    split; [|split]; auto. }
  rewrite (adminBootstrap_shape flagAdmin db Hflag). intros [= <-].
  cbn [users access]. split; [|split].
  - intros a Hin. unfold bootstrap_access.
    destruct (Contains _ "/"); [exact Hin|].
    apply in_or_app. left. exact Hin.
  - intros u Hin Ha. unfold bootstrap_users.
    destruct (queryUserBySnowflake db flagAdmin) as [uu|].
    + destruct (user_admin uu); [exact Hin|].
      rewrite <- (set_admin_where_of_admin (user_id uu) u Ha).
      apply in_map. exact Hin.
    + apply in_or_app. left. exact Hin.
  - unfold bootstrap_users.
    destruct (queryUserBySnowflake db flagAdmin) as [uu|].
    + destruct (user_admin uu); [reflexivity|]. rewrite length_map. reflexivity.
    + rewrite length_app. cbn. lia.
Qed.

Lemma adminBootstrap_takes_nothing_away_witness :
  (forall a, In a (access sample_DB) ->
             In a (access {| schema := schema sample_DB;
                             users := bootstrap_users "1234" sample_DB;
                             access := bootstrap_access "1234" sample_DB;
                             shares := shares sample_DB |}))
  /\ (forall u, In u (users sample_DB) -> user_admin u = true ->
                In u (users {| schema := schema sample_DB;
                               users := bootstrap_users "1234" sample_DB;
                               access := bootstrap_access "1234" sample_DB;
                               shares := shares sample_DB |}))
  /\ (length (users sample_DB)
      <= length (users {| schema := schema sample_DB;
                          users := bootstrap_users "1234" sample_DB;
                          access := bootstrap_access "1234" sample_DB;
                          shares := shares sample_DB |}))%nat.
Proof.
  apply (adminBootstrap_takes_nothing_away "1234" sample_DB).
  reflexivity.
Defined.

(** ** Start-up options *)

Lemma themeLoop_none_iff (wd : world) (metaDir : string)
    (items : list string) (dirs : list FileSystem) :
  themeLoop wd metaDir items dirs = None
  <-> Exists (fun t => DoesDirectoryExist wd (metaDir +:+ "/themes/" +:+ t) = false)
             items.
Proof.
  revert dirs. induction items as [|t items IH]; intros dirs; simpl.
  - split; [discriminate|]. intros H. inversion H.
  - destruct (DoesDirectoryExist wd (metaDir +:+ "/themes/" +:+ t)) eqn:Ht.
    + rewrite IH. split.
      * intros H. apply Exists_cons. right. exact H.
      * intros H. apply Exists_cons in H as [H|H]; [congruence|exact H].
    + split; [|reflexivity]. intros _. apply Exists_cons. left. exact Ht.
Qed.

(** X16. The overlay set-up makes the process die exactly when a theme
    named by a [--theme] flag or by the configuration file is not a
    directory below [metaDir/themes]; a theme that is missing stops the
    start even when it is the last one listed. *)
Theorem setupOverlay_dies_iff (wd : world) (metaDir : string)
    (flagTheme configThemes : list string) :
  setupOverlay wd metaDir flagTheme configThemes = None
  <-> Exists (fun t => DoesDirectoryExist wd (metaDir +:+ "/themes/" +:+ t) = false)
             (flagTheme ++ configThemes).
Proof.
  unfold setupOverlay. rewrite Exists_app.
  destruct (themeLoop wd metaDir flagTheme []) as [dirs|] eqn:Hflag.
  - assert (Hnot : ~ Exists
        (fun t => DoesDirectoryExist wd (metaDir +:+ "/themes/" +:+ t) = false)
        flagTheme).
    { intros H. apply themeLoop_none_iff with (dirs := []) in H. congruence. }
    destruct (themeLoop wd metaDir configThemes dirs) as [dirs'|] eqn:Hconf.
    + split; [discriminate|]. intros [H|H]; [contradiction|].
      apply themeLoop_none_iff with (dirs := dirs) in H. congruence.
    + split; [|reflexivity]. intros _. right.
      apply (themeLoop_none_iff wd metaDir configThemes dirs). exact Hconf.
  - split; [|reflexivity]. intros _. left.
    apply (themeLoop_none_iff wd metaDir flagTheme []). exact Hflag.
Qed.

Example setupOverlay_missing_theme :
  setupOverlay sample_world "/meta" ["dark"] ["blue"; "retro"] = None.
Proof. reflexivity. Qed.

(** X17. The root directory is set up exactly when the root type is
    [dir], a root is given, by the [--root] flag or else by the
    configuration file, and the resolved path is a directory; the flag
    has precedence over the file.  For every other root type, [http]
    among them, the process dies. *)
Theorem configureRoot_succeeds_iff (wd : world) (absClean : string -> string)
    (flagRoot flagRType : string) (config : Config) (s : string) :
  configureRoot wd absClean flagRoot flagRType config = Some s
  <-> (flagRType = "dir"
       /\ (if String.eqb flagRoot "" then Root config else flagRoot) <> ""
       /\ s = absClean (if String.eqb flagRoot "" then Root config else flagRoot)
       /\ is_Some (disk wd !! s)).
Proof.
  unfold configureRoot, RootTypeDir.
  assert (Hop : findFirstNonEmpty [flagRoot; Root config]
                = if String.eqb flagRoot "" then Root config else flagRoot).
  { destruct flagRoot as [|c f]; [|reflexivity].
    simpl. destruct (Root config); reflexivity. }
  rewrite Hop. set (opRoot := if String.eqb flagRoot "" then Root config else flagRoot).
  destruct (String.eqb_spec flagRType "dir") as [Ht|Ht].
  2: { split; [discriminate|]. intros [Ht' _]. contradiction. }
  destruct (String.eqb_spec opRoot "") as [Ho|Ho].
  { split; [discriminate|]. intros [_ [Ho' _]]. contradiction. }
  unfold DoesDirectoryExist.
  destruct (bool_decide_reflect (is_Some (disk wd !! absClean opRoot))) as [Hd|Hd].
  - split.
    + intros [= <-]. repeat split; assumption.
    + intros [_ [_ [-> _]]]. reflexivity.
  - split; [discriminate|]. intros [_ [_ [-> Hd']]]. contradiction.
Qed.

Example configureRoot_http_dies :
  configureRoot sample_world (fun p => p) "./www/" "http" sample_Config = None
  /\ configureRoot sample_world (fun p => p) "./www/" "dir" sample_Config
     = Some "./www/"
  /\ configureRoot sample_world (fun p => p) "" "dir" sample_Config = None.
Proof. repeat split. Qed.

(** ** Reflection and the identity provider *)

(** X18. The [json] tags of [Config] are distinct: looking a field up by
    the [json] tag of the field number [i] returns the field number [i],
    for each of the thirteen fields. *)
Theorem findStructValueWithTag_json_round_trip {A : Type} (item : A)
    (v : Config) (i : nat) (f : StructField) :
  Config_fields !! i = Some f ->
  findStructValueWithTag (Some v) item "json" (Tag_Get (Tag f) "json")
  = Returns (Config_Field v i).
Proof.
  intros Hi.
  do 13 (destruct i as [|i]; [injection Hi as <-; reflexivity|]).
  discriminate.
Qed.

Lemma findStructValueWithTag_json_round_trip_witness :
  findStructValueWithTag (Some sample_Config) tt "json"
    (Tag_Get (Tag {| Name := "CustomIds"; Tag := [("json", "custom")] |}) "json")
  = Returns (Config_Field sample_Config 12).
Proof.
  apply (findStructValueWithTag_json_round_trip tt sample_Config 12%nat
           {| Name := "CustomIds"; Tag := [("json", "custom")] |}).
  reflexivity.
Defined.

(** X19. Every field of [Config] carries a [json] tag only.  For a tag
    of any other kind the lookup reads the empty string on every field:
    asked for the empty tag it returns the first field, [Root], and asked
    for any other tag it panics in [reflect.Zero(nil)]. *)
Theorem findStructValueWithTag_other_kind {A : Type} (item : A) (v : Config)
    (ttype tag : string) :
  ttype <> "json" ->
  findStructValueWithTag (Some v) item ttype ""
  = Returns (RString (Root v))
  /\ (tag <> "" ->
      findStructValueWithTag (Some v) item ttype tag
      = Panics "reflect: Zero(nil)").
Proof.
  intros Hkind.
  assert (Hget : forall x, Tag_Get [("json", x)] ttype = "").
  { intros x. cbn [Tag_Get]. destruct (String.eqb_spec "json" ttype) as [Heq|_];
      [congruence|reflexivity]. }
  split.
  - unfold findStructValueWithTag, Config_fields. cbn [findField Tag Name].
    rewrite Hget. reflexivity.
  - intros Htag. unfold findStructValueWithTag, Config_fields.
    cbn [findField Tag Name]. rewrite !Hget.
    destruct (String.eqb_spec "" tag) as [Heq|_]; [congruence|reflexivity].
Qed.

Lemma findStructValueWithTag_other_kind_witness :
  findStructValueWithTag (Some sample_Config) tt "yaml" ""
  = Returns (RString (Root sample_Config))
  /\ ("discord" <> "" ->
      findStructValueWithTag (Some sample_Config) tt "yaml" "discord"
      = Panics "reflect: Zero(nil)").
Proof.
  apply (findStructValueWithTag_other_kind tt sample_Config "yaml" "discord").
  discriminate.
Defined.

Lemma String_length_zero (s : string) :
  Nat.eqb (String.length s) 0 = String.eqb s "".
Proof. destruct s; reflexivity. Qed.

(** X20. What a completed provider discovery guarantees.  The name of the
    provider is the configured one, or [discord] when none is
    configured.  For a built-in provider the credentials are the field
    of that [json] tag, and their id and secret are not empty.  For a
    provider that is not built in, it is an entry of [providers] with
    that id, and the credentials are an entry of [custom] with that
    name; their id and secret are not looked at. *)
Theorem discoverOAuth2_success (Oauth2Providers : gmap string Oauth2Provider)
    (config config' : Config) (c : ConfigIDP) (prov : Oauth2Provider) :
  discoverOAuth2 Oauth2Providers config = Returns (Some (config', c, prov)) ->
  config' = (if String.eqb (Auth config) "" then set_Auth "discord" config
             else config)
  /\ Auth config' <> ""
  /\ ((Oauth2Providers !! Auth config' = Some prov
       /\ findStructValueWithTag (Some config') tt "json" (Auth config')
          = Returns (RIDP (Some c))
       /\ idp_ID c <> "" /\ idp_Secret c <> "")
      \/ (Oauth2Providers !! Auth config' = None
          /\ In (idp prov) (Providers config')
          /\ prov_ID (idp prov) = Auth config'
          /\ dbp prov = Auth config'
          /\ In c (CustomIds config')
          /\ idp_Auth c = Auth config')).
Proof.
  unfold discoverOAuth2. rewrite String_length_zero.
  set (cfg := if String.eqb (Auth config) "" then set_Auth "discord" config
              else config).
  assert (Hne : Auth cfg <> "").
  { unfold cfg. destruct (String.eqb_spec (Auth config) ""); [discriminate|assumption]. }
  destruct (Oauth2Providers !! Auth cfg) as [cfp|] eqn:Hp.
  - destruct (findStructValueWithTag (Some cfg) cfg "json" (Auth cfg))
      as [v|why] eqn:Hv; cbn [obind]; [|discriminate].
    destruct v as [|s|z|l|[c0|]|l|l]; cbn [assertConfigIDP obind];
      try discriminate.
    destruct (String.eqb_spec (idp_ID c0) "") as [|Hid]; [discriminate|].
    destruct (String.eqb_spec (idp_Secret c0) "") as [|Hsec]; [discriminate|].
    intros [= <- <- <-].
    split; [reflexivity|]. split; [exact Hne|]. left.
    split; [exact Hp|]. split; [exact Hv|]. split; assumption.
  - destruct (List.find _ (Providers cfg)) as [item|] eqn:Hitem; [|discriminate].
    destruct (List.find _ (CustomIds cfg)) as [cid|] eqn:Hcid; [|discriminate].
    intros [= <- <- <-].
    apply find_some in Hitem as [Hin1 Heq1]. apply String.eqb_eq in Heq1.
    apply find_some in Hcid as [Hin2 Heq2]. apply String.eqb_eq in Heq2.
    split; [reflexivity|]. split; [exact Hne|]. right.
    cbn [idp dbp]. repeat split; assumption.
Qed.

Lemma discoverOAuth2_success_witness :
  sample_Config = (if String.eqb (Auth sample_Config) ""
                   then set_Auth "discord" sample_Config else sample_Config)
  /\ Auth sample_Config <> ""
  /\ ((sample_Oauth2Providers !! Auth sample_Config = Some sample_Oauth2Provider
       /\ findStructValueWithTag (Some sample_Config) tt "json" (Auth sample_Config)
          = Returns (RIDP (Some {| idp_Auth := ""; idp_ID := "42";
                                   idp_Secret := "s3" |}))
       /\ idp_ID {| idp_Auth := ""; idp_ID := "42"; idp_Secret := "s3" |} <> ""
       /\ idp_Secret {| idp_Auth := ""; idp_ID := "42"; idp_Secret := "s3" |} <> "")
      \/ (sample_Oauth2Providers !! Auth sample_Config = None
          /\ In (idp sample_Oauth2Provider) (Providers sample_Config)
          /\ prov_ID (idp sample_Oauth2Provider) = Auth sample_Config
          /\ dbp sample_Oauth2Provider = Auth sample_Config
          /\ In {| idp_Auth := ""; idp_ID := "42"; idp_Secret := "s3" |}
                (CustomIds sample_Config)
          /\ idp_Auth {| idp_Auth := ""; idp_ID := "42"; idp_Secret := "s3" |}
             = Auth sample_Config)).
Proof.
  apply (discoverOAuth2_success sample_Oauth2Providers sample_Config sample_Config
           {| idp_Auth := ""; idp_ID := "42"; idp_Secret := "s3" |}
           sample_Oauth2Provider).
  reflexivity.
Defined.

(** X21. With no provider configured and [discord] built in, the
    discovery goes on exactly with the [discord] credentials of the
    configuration file, provided that they are there and that neither
    their id nor their secret is empty; otherwise the process dies. *)
Theorem discoverOAuth2_default_discord
    (Oauth2Providers : gmap string Oauth2Provider) (config : Config)
    (cfp : Oauth2Provider) :
  Auth config = "" ->
  Oauth2Providers !! "discord" = Some cfp ->
  discoverOAuth2 Oauth2Providers config
  = Returns
      match Discord config with
      | Some c =>
          if String.eqb (idp_ID c) "" || String.eqb (idp_Secret c) "" then None
          else Some (set_Auth "discord" config, c, cfp)
      | None => None
      end.
Proof.
  intros Hauth Hp. unfold discoverOAuth2. rewrite Hauth.
  cbn [String.length Nat.eqb set_Auth Auth]. rewrite Hp.
  cbn. destruct (Discord config) as [c|]; [|reflexivity].
  destruct (String.eqb (idp_ID c) ""); [reflexivity|].
  destruct (String.eqb (idp_Secret c) ""); reflexivity.
Qed.

Lemma discoverOAuth2_default_discord_witness :
  discoverOAuth2 sample_Oauth2Providers (set_Auth "" sample_Config)
  = Returns
      match Discord (set_Auth "" sample_Config) with
      | Some c =>
          if String.eqb (idp_ID c) "" || String.eqb (idp_Secret c) "" then None
          else Some (set_Auth "discord" (set_Auth "" sample_Config), c,
                     sample_Oauth2Provider)
      | None => None
      end.
Proof.
  apply (discoverOAuth2_default_discord sample_Oauth2Providers
           (set_Auth "" sample_Config) sample_Oauth2Provider);
    reflexivity.
Defined.

(** ** Denials of a file path *)




(** The page that a member is shown for a denied file path. *)
Example denyFilePath_member_page :
  option_map (fun w => (status w, body w))
    (match denyFilePath sample_Render sample_globals false NotFound
                        member_Request new_ResponseWriter with
     | Returns w => Some w
     | Panics _ => None
     end)
  = Some (Some 403,
          "Not Found: Unable to find the requested resource for you @kyle (1234). "
          +:+ newline).
Proof. vm_compute. reflexivity. Qed.

(** ** The login gate: who gets a user row *)

(** C3. With [requireAdmin] set, on a session as the login leaves it and
    with the template in reach, [apiBootstrapRequireLogin] returns the
    error result, and so no user row, whenever the method is not the
    required one, the session has no user, the user of the session is
    not in the [users] table, or that user is not an admin.  It returns
    a user row, without error, exactly when the method is the required
    one, the user of the session is in the table with that row, the row
    is an admin and the form parses; the session returned is the one of
    the request and nothing is written. *)
Theorem apiBootstrapRequireLogin_admin_only
    (Render : string -> gmap string string -> string) (g : globals)
    (r : Request) (w : ResponseWriter) (method tpl : string) :
  Multiplex_Open (files g) (wwFFS g) "/response.hbs" = Some tpl ->
  session_ok r = true ->
  (Method r <> method
   \/ Values r !! "user" = None
   \/ (exists userID, Values r !! "user" = Some (VString userID)
         /\ queryUserBySnowflake (database g) userID = None)
   \/ (exists userID user, Values r !! "user" = Some (VString userID)
         /\ queryUserBySnowflake (database g) userID = Some user
         /\ user_admin user = false) ->
   exists w', apiBootstrapRequireLogin Render g r w method true
              = Returns (LoginError, w'))
  /\ (forall (sess : gmap string value) (user : UserRow) (w' : ResponseWriter),
        apiBootstrapRequireLogin Render g r w method true
        = Returns (LoginOk sess user, w')
        <-> (Method r = method
             /\ (exists userID, Values r !! "user" = Some (VString userID)
                   /\ queryUserBySnowflake (database g) userID = Some user)
             /\ user_admin user = true
             /\ is_Some (ParseForm r)
             /\ sess = Values r /\ w' = w)).
Proof.
  intros Htpl Hsess. split.
  - intros Hcase. apply (apiBootstrapRequireLogin_errors Render g r w method tpl Htpl).
    destruct Hcase as [Hm|[Hu|[Hq|Ha]]].
    + left. exact Hm.
    + right. left. split; [exact Hu|].
      unfold session_ok in Hsess. rewrite Hu in Hsess.
      destruct (Values r !! "name") as [[n|t]|]; [discriminate|discriminate|reflexivity].
    + right. right. left. exact Hq.
    + right. right. right. exact Ha.
  - intros sess user w'. split.
    + intros Hok.
      apply apiBootstrapRequireLogin_sound in Hok
        as [Hm [Hu [Hadm [Hform [Hs Hw]]]]].
      repeat match goal with |- _ /\ _ => split end; try assumption.
      apply Hadm. reflexivity.
    + intros [<- [[userID [Hu Hq]] [Hadm [Hform [-> ->]]]]].
      apply (apiBootstrapRequireLogin_complete _ _ _ _ _ userID); try assumption.
      intros _. exact Hadm.
Qed.

Lemma apiBootstrapRequireLogin_admin_only_witness :
  (exists w', apiBootstrapRequireLogin sample_Render sample_globals
                member_Request new_ResponseWriter "POST" true
              = Returns (LoginError, w'))
  /\ (forall (sess : gmap string value) (user : UserRow) (w' : ResponseWriter),
        apiBootstrapRequireLogin sample_Render sample_globals
          member_Request new_ResponseWriter "POST" true
        = Returns (LoginOk sess user, w')
        <-> (Method member_Request = "POST"
             /\ (exists userID,
                   Values member_Request !! "user" = Some (VString userID)
                   /\ queryUserBySnowflake (database sample_globals) userID
                      = Some user)
             /\ user_admin user = true
             /\ is_Some (ParseForm member_Request)
             /\ sess = Values member_Request /\ w' = new_ResponseWriter)).
Proof.
  destruct (apiBootstrapRequireLogin_admin_only sample_Render sample_globals
              member_Request new_ResponseWriter "POST" "{{title}}"
              eq_refl eq_refl) as [Herr Hok].
  split; [|exact Hok].
  apply Herr. right. right. right.
  exists "1234", {| user_id := 7; user_snowflake := "1234";
                    user_admin := false; user_name := "kyle" |}.
  split; [reflexivity|]. split; reflexivity.
Defined.

(** ** What a start persists *)












(** The sample start: the earlier [users] table gains its two columns,
    the table of another name stays, the new admin gets the next ids, and
    the overlay puts the theme first. *)
Example sample_Process_store :
  column_names (p_database sample_Process) "users"
  = Some ["id"; "snowflake"; "admin"; "name"]
  /\ column_names (p_database sample_Process) "legacy" = Some ["k"]
  /\ users (p_database sample_Process)
     = (users sample_DB ++ [admin_row 8 "555"])%list
  /\ access (p_database sample_Process)
     = (access sample_DB ++ [root_grant 3 8])%list
  /\ p_wwFFS sample_Process
     = [Dir "/home/a/.config/andesite/themes/blue"; Dir "./www/"; Box "" "./www/"]
  /\ p_port sample_Process = 8000
  /\ p_httpBase sample_Process = "/".
Proof. vm_compute. repeat split. Qed.
